(** * Log likelihood wrappers of MOE: a shallow embedding

    Source: moe/optimal_learning/EPI/src/python/cpp_wrappers/log_likelihood.py

    The module is a thin Python layer over the C++ engine [C_GP].  Python
    objects live in a store of references (deep copies, in-place mutation
    and aliasing are visible there); methods are computations in a
    state-and-exception monad over that store; [double]s are IEEE binary64
    values. *)

From Stdlib Require Import ZArith Floats.
From stdpp Require Import gmap strings list fin_maps.

Open Scope Z_scope.

(** ** Data model *)

(** References to Python objects. *)
Abbreviation loc := positive.

(** [C_GP.LogLikelihoodTypes] (enum declared in gpp_python_common.cpp). *)
Inductive LogLikelihoodTypes :=
| log_marginal_likelihood
| leave_one_out_log_likelihood.

(** [C_GP.OptimizerTypes]: null ('dumb' search), gradient descent, newton. *)
Inductive OptimizerTypes :=
| null
| gradient_descent
| newton.

(** [geometry_utils.ClosedInterval(min, max)]. *)
Record ClosedInterval := { min : float; max : float }.

(** The classes of this module; an instance remembers which one built it,
    method lookup goes through it. *)
Inductive LogLikelihoodClass :=
| LogLikelihood
| LogMarginalLikelihood
| LeaveOneOutLogLikelihood.

(** Instance attributes set by [LogLikelihood.__init__]. *)
Record LogLikelihoodObject := {
  class_of : LogLikelihoodClass;
  _covariance : loc;
  _historical_data : loc;
  _log_likelihood_type : LogLikelihoodTypes
}.

(** The attributes of a historical data container this module reads: two
    scalars and three references to numpy arrays. *)
Record HistoricalDataObject := {
  dim_of : Z;
  num_sampled : Z;
  points_sampled : loc;
  points_sampled_value : loc;
  noise_variance : loc
}.

(** [HyperparameterOptimizationParameters]
    (cpp_wrappers.optimization_parameters): the field this module writes,
    [objective_type], and the options the engine reads. *)
Record HyperparameterOptimizationParameters := {
  objective_type : LogLikelihoodTypes;
  optimizer_type : OptimizerTypes;
  num_multistarts : nat;
  max_num_steps : nat
}.

(** [C_GP.RandomnessSourceContainer]: one uniform generator and one normal
    generator per thread, each identified here by its seed. *)
Record RandomnessSourceContainer := {
  num_threads : Z;
  uniform_generator_seed : Z;
  normal_rng_seeds : list Z
}.

(** Objects of the store. *)
Inductive obj :=
| ndarray (data : list float)
| ndarray2 (rows : list (list float))
| Covariance (hyperparameters : list float)
| HistoricalData (d : HistoricalDataObject)
| LogLikelihoodInstance (o : LogLikelihoodObject)
| OptimizationParameters (p : HyperparameterOptimizationParameters)
| dict (entries : gmap string bool).

Abbreviation heap := (gmap loc obj).

Inductive exn :=
| NotImplementedError (msg : string)
| AttributeError
| UnsupportedOperation
| InvalidDomain
| InvalidConfiguration.

Inductive result (A : Type) :=
| Ok (a : A)
| Raise (e : exn).
Arguments Ok {A} a.
Arguments Raise {A} e.

(** ** The monad of Python computations

    A computation reads and writes the store; an exception keeps the writes
    made before it was raised. *)
Definition M (A : Type) : Type := heap -> result A * heap.

#[global] Instance M_ret : MRet M := fun A a h => (Ok a, h).

#[global] Instance M_bind : MBind M := fun A B f c h =>
  match c h with
  | (Ok a, h') => f a h'
  | (Raise e, h') => (Raise e, h')
  end.

Definition raise {A} (e : exn) : M A := fun h => (Raise e, h).

Definition alloc (o : obj) : M loc :=
  fun h => let l := fresh (dom h) in (Ok l, <[l := o]> h).

Definition load (l : loc) : M obj :=
  fun h => match h !! l with
           | Some o => (Ok o, h)
           | None => (Raise AttributeError, h)
           end.

Definition store (l : loc) (o : obj) : M unit :=
  fun h => (Ok tt, <[l := o]> h).

(** Typed reads: an attribute access on an object of another kind fails. *)
Definition load_ndarray (l : loc) : M (list float) :=
  o ← load l;
  match o with ndarray a => mret a | _ => raise AttributeError end.

Definition load_ndarray2 (l : loc) : M (list (list float)) :=
  o ← load l;
  match o with ndarray2 a => mret a | _ => raise AttributeError end.

Definition load_HistoricalData (l : loc) : M HistoricalDataObject :=
  o ← load l;
  match o with HistoricalData d => mret d | _ => raise AttributeError end.

Definition load_LogLikelihood (l : loc) : M LogLikelihoodObject :=
  o ← load l;
  match o with LogLikelihoodInstance e => mret e | _ => raise AttributeError end.

Definition load_OptimizationParameters (l : loc)
  : M HyperparameterOptimizationParameters :=
  o ← load l;
  match o with OptimizationParameters p => mret p | _ => raise AttributeError end.

(** ** Collaborators outside this module *)

(** Modelled from the spec: the covariance classes (cpp_wrappers.covariance)
    are not part of the sources; the kernel "exposes [num_hyperparameters],
    [get/set_hyperparameters]" and a hyperparameter vector has "length =
    num_hyperparameters".  A kernel object holds its vector; the setter
    replaces it, the getter reads it. *)
Definition get_hyperparameters (cov : loc) : M (list float) :=
  o ← load cov;
  match o with Covariance hs => mret hs | _ => raise AttributeError end.

(** Modelled from the spec: the kernel's [set_hyperparameters], see
    [get_hyperparameters]. *)
Definition set_hyperparameters (cov : loc) (hyperparameters : list float) : M unit :=
  o ← load cov;
  match o with
  | Covariance _ => store cov (Covariance hyperparameters)
  | _ => raise AttributeError
  end.

(** Modelled from the spec: the kernel's [num_hyperparameters], the length
    of its hyperparameter vector. *)
Definition covariance_num_hyperparameters (cov : loc) : M nat :=
  hs ← get_hyperparameters cov; mret (length hs).

(** [cpp_utils.cppify] of an array attribute: the array's contents, handed
    to C++ by value. *)
Definition cppify (a : loc) : M (list float) := load_ndarray a.
Definition cppify2 (a : loc) : M (list (list float)) := load_ndarray2 a.

(** [copy.deepcopy] on the objects this module copies.  Arrays, kernels,
    parameter objects and dicts own no references: their copy is a new
    object with the same contents.  A historical data container refers to
    three arrays, each of which is copied too. *)
Definition deepcopy_leaf (l : loc) : M loc :=
  o ← load l;
  match o with
  | HistoricalData _ | LogLikelihoodInstance _ => raise AttributeError
  | _ => alloc o
  end.

Definition deepcopy (l : loc) : M loc :=
  o ← load l;
  match o with
  | HistoricalData d =>
      ps ← deepcopy_leaf (points_sampled d);
      psv ← deepcopy_leaf (points_sampled_value d);
      nv ← deepcopy_leaf (noise_variance d);
      alloc (HistoricalData {| dim_of := dim_of d; num_sampled := num_sampled d;
                               points_sampled := ps; points_sampled_value := psv;
                               noise_variance := nv |})
  | LogLikelihoodInstance _ => raise AttributeError
  | _ => alloc o
  end.

(** ** class LogLikelihood *)

(** [LogLikelihood.__init__]; [cls] is the class being instantiated. *)
Definition LogLikelihood___init__ (cls : LogLikelihoodClass)
    (covariance_function historical_data : loc)
    (log_likelihood_type : LogLikelihoodTypes) : M loc :=
  cov ← deepcopy covariance_function;
  hist ← deepcopy historical_data;
  alloc (LogLikelihoodInstance
           {| class_of := cls; _covariance := cov; _historical_data := hist;
              _log_likelihood_type := log_likelihood_type |}).

(** [LogMarginalLikelihood.__init__]. *)
Definition LogMarginalLikelihood___init__ (covariance_function historical_data : loc)
  : M loc :=
  LogLikelihood___init__ LogMarginalLikelihood covariance_function historical_data
    log_marginal_likelihood.

(** [LeaveOneOutLogLikelihood.__init__]. *)
Definition LeaveOneOutLogLikelihood___init__ (covariance_function historical_data : loc)
  : M loc :=
  LogLikelihood___init__ LeaveOneOutLogLikelihood covariance_function historical_data
    leave_one_out_log_likelihood.

(** Property [dim]. *)
Definition dim (self : loc) : M Z :=
  e ← load_LogLikelihood self;
  d ← load_HistoricalData (_historical_data e);
  mret (dim_of d).

(** Property [num_hyperparameters]. *)
Definition num_hyperparameters (self : loc) : M nat :=
  e ← load_LogLikelihood self;
  covariance_num_hyperparameters (_covariance e).

(** Property [problem_size]. *)
Definition problem_size (self : loc) : M nat := num_hyperparameters self.

Definition hessian_not_exposed : string :=
  "Currently C++ does not expose Hessian computation of log likelihood-like metrics.".

Definition hessian_not_supported_loo : string :=
  "Currently C++ does not support Hessian computation of LOO-CV.".

(** [LogLikelihood.compute_hessian_log_likelihood]. *)
Definition LogLikelihood_compute_hessian_log_likelihood
    (self : loc) (hyperparameters : list float) : M (list (list float)) :=
  raise (NotImplementedError hessian_not_exposed).

(** [LeaveOneOutLogLikelihood.compute_hessian_log_likelihood]. *)
Definition LeaveOneOutLogLikelihood_compute_hessian_log_likelihood
    (self : loc) (hyperparameters : list float) : M (list (list float)) :=
  raise (NotImplementedError hessian_not_supported_loo).

(** [self.compute_hessian_log_likelihood(hyperparameters)]: the method of
    the instance's class; only LeaveOneOutLogLikelihood overrides the one
    of LogLikelihood. *)
Definition compute_hessian_log_likelihood
    (self : loc) (hyperparameters : list float) : M (list (list float)) :=
  e ← load_LogLikelihood self;
  match class_of e with
  | LeaveOneOutLogLikelihood =>
      LeaveOneOutLogLikelihood_compute_hessian_log_likelihood self hyperparameters
  | LogLikelihood | LogMarginalLikelihood =>
      LogLikelihood_compute_hessian_log_likelihood self hyperparameters
  end.

(** [LogLikelihood.compute_hessian_objective_function]. *)
Definition compute_hessian_objective_function
    (self : loc) (current_point : list float) : M (list (list float)) :=
  compute_hessian_log_likelihood self current_point.

(** ** The C++ engine, [moe.build.GPP] *)

(** Modelled from the spec: the module [C_GP] is compiled C++ and not part
    of the sources.  Its numerical kernels [C_GP_compute_log_likelihood]
    and [C_GP_compute_hyperparameter_grad_log_likelihood] (section 4.1,
    [compute] and [compute_gradient]) are kept abstract: what the Python
    layer relies on is that each is a function of the arguments it is
    handed.  So are [latin_hypercube] ("Generate [num_multistarts]
    initial points via Latin Hypercube Sampling over [domain], using
    [randomness]"), and the two iterative local optimizers of section 4.2,
    [gradient_ascent_refine] and [newton_refine], which see the objective,
    its gradient, the domain and the tunables.

    Modelled from the source comments at the two seeding calls of
    [multistart_hyperparameter_optimization] ("set seed based on less
    repeatable factors (e.g,. time)", "set seed baesd on thread id & less
    repeatable factors (e.g,. time)"): [randomized_seed base thread_id
    entropy] is the seed a [SetRandomized...Seed(base)] call installs in
    the generator of thread [thread_id] when the less repeatable factors
    read [entropy]. *)
Class GPP := {
  C_GP_compute_log_likelihood :
    list (list float) -> list float -> Z -> Z -> LogLikelihoodTypes ->
    list float -> list float -> float;
  C_GP_compute_hyperparameter_grad_log_likelihood :
    list (list float) -> list float -> Z -> Z -> LogLikelihoodTypes ->
    list float -> list float -> list float;
  kDefaultSeed : Z;
  randomized_seed : Z -> Z -> Z -> Z;
  latin_hypercube :
    RandomnessSourceContainer -> list ClosedInterval -> nat -> list (list float);
  gradient_ascent_refine :
    (list float -> float) -> (list float -> list float) -> list ClosedInterval ->
    HyperparameterOptimizationParameters -> list float -> list float;
  newton_refine :
    (list float -> float) -> (list float -> list float) -> list ClosedInterval ->
    HyperparameterOptimizationParameters -> list float -> list float
}.

(** [C_GP.RandomnessSourceContainer(num_threads)]. *)
Definition RandomnessSourceContainer_new {engine : GPP} (n : Z) : RandomnessSourceContainer :=
  {| num_threads := n;
     uniform_generator_seed := kDefaultSeed;
     normal_rng_seeds := replicate (Z.to_nat n) kDefaultSeed |}.

(** [randomness.SetRandomizedUniformGeneratorSeed(seed)]. *)
Definition SetRandomizedUniformGeneratorSeed {engine : GPP} (seed entropy : Z)
    (r : RandomnessSourceContainer) : RandomnessSourceContainer :=
  {| num_threads := num_threads r;
     uniform_generator_seed := randomized_seed seed 0 entropy;
     normal_rng_seeds := normal_rng_seeds r |}.

(** [randomness.SetRandomizedNormalRNGSeed(seed)]. *)
Definition SetRandomizedNormalRNGSeed {engine : GPP} (seed entropy : Z)
    (r : RandomnessSourceContainer) : RandomnessSourceContainer :=
  {| num_threads := num_threads r;
     uniform_generator_seed := uniform_generator_seed r;
     normal_rng_seeds :=
       imap (fun i _ => randomized_seed seed (Z.of_nat i) entropy) (normal_rng_seeds r) |}.

(** The arguments of [C_GP.multistart_hyperparameter_optimization], in the
    order of the call.  The parameter object and the status dict are passed
    by reference, everything else by value. *)
Record EngineArguments := {
  arg_optimization_parameters : loc;
  arg_domain : list ClosedInterval;
  arg_points_sampled : list (list float);
  arg_points_sampled_value : list float;
  arg_dim : Z;
  arg_num_sampled : Z;
  arg_hyperparameters : list float;
  arg_noise_variance : list float;
  arg_max_num_threads : Z;
  arg_randomness : RandomnessSourceContainer;
  arg_status : loc
}.

Definition load_dict (l : loc) : M (gmap string bool) :=
  o ← load l;
  match o with dict d => mret d | _ => raise AttributeError end.

Definition found_improvement : string := "found_improvement".

Section Engine.
Context {engine : GPP}.

(** Modelled from the spec: the objective and gradient the engine
    optimizes, "value = [evaluator.compute(refined_point)]". *)
Definition engine_objective (a : EngineArguments) (kind : LogLikelihoodTypes)
    (x : list float) : float :=
  C_GP_compute_log_likelihood (arg_points_sampled a) (arg_points_sampled_value a)
    (arg_dim a) (arg_num_sampled a) kind x (arg_noise_variance a).

Definition engine_gradient (a : EngineArguments) (kind : LogLikelihoodTypes)
    (x : list float) : list float :=
  C_GP_compute_hyperparameter_grad_log_likelihood (arg_points_sampled a)
    (arg_points_sampled_value a) (arg_dim a) (arg_num_sampled a) kind x
    (arg_noise_variance a).

(** Modelled from the spec: section 4.2, [LocalOptimizer.refine].  "Null:
    returns [start_point] unchanged". *)
Definition refine (a : EngineArguments) (p : HyperparameterOptimizationParameters)
    (start : list float) : list float :=
  let kind := objective_type p in
  match optimizer_type p with
  | null => start
  | gradient_descent =>
      gradient_ascent_refine (engine_objective a kind) (engine_gradient a kind)
        (arg_domain a) p start
  | newton =>
      newton_refine (engine_objective a kind) (engine_gradient a kind)
        (arg_domain a) p start
  end.

(** Modelled from the spec: section 4.3 step 3, "select the maximizer.
    Tie-break: first-found in iteration order". *)
Fixpoint select_maximizer (value : list float -> float) (best : list float)
    (candidates : list (list float)) : list float :=
  match candidates with
  | [] => best
  | c :: cs =>
      select_maximizer value (if PrimFloat.ltb (value best) (value c) then c else best) cs
  end.

(** Modelled from the spec: section 7, "Newton optimizer selected with
    LOO-CV evaluator" is an UnsupportedOperation. *)
Definition unsupported_combination (p : HyperparameterOptimizationParameters) : bool :=
  match optimizer_type p, objective_type p with
  | newton, leave_one_out_log_likelihood => true
  | _, _ => false
  end.

(** Modelled from the spec: section 7, InvalidDomain is a "malformed
    interval ([min > max]) or dimension mismatch between domain length and
    [num_hyperparameters]". *)
Definition valid_domain (domain : list ClosedInterval) (hyperparameters : list float)
  : bool :=
  forallb (fun i => negb (PrimFloat.ltb (max i) (min i))) domain
  && Nat.eqb (length domain) (length hyperparameters).

(** The initial guesses and the refined candidates of one engine run. *)
Definition initial_guesses (a : EngineArguments)
    (p : HyperparameterOptimizationParameters) : list (list float) :=
  latin_hypercube (arg_randomness a) (arg_domain a) (num_multistarts p).

Definition candidates (a : EngineArguments)
    (p : HyperparameterOptimizationParameters) : list (list float) :=
  map (refine a p) (initial_guesses a p).

(** Modelled from the spec: the algorithm of section 4.3 (steps 1 to 5),
    with the failures of section 7 raised before any work is done.  The
    answer is the returned point together with the flag
    "[best_value > first_initial_value]"; "if no point improves on the
    first initial guess, the returned hyperparameters are exactly the first
    randomly chosen initial point". *)
Definition multistart_search (a : EngineArguments)
    (p : HyperparameterOptimizationParameters) : result (list float * bool) :=
  if unsupported_combination p then Raise UnsupportedOperation
  else if negb (valid_domain (arg_domain a) (arg_hyperparameters a))
  then Raise InvalidDomain
  else
    match candidates a p, initial_guesses a p with
    | c :: cs, first :: _ =>
        let value := engine_objective a (objective_type p) in
        let best := select_maximizer value c cs in
        let improved := PrimFloat.ltb (value first) (value best) in
        Ok (if improved then best else first, improved)
    | _, _ => Raise InvalidConfiguration
    end.

(** Modelled from the spec: [C_GP.multistart_hyperparameter_optimization].
    The engine reads the parameter object and the status dict it was
    handed, searches, and on success records the flag under the key
    [found_improvement] of that dict ("Status object: a mapping with at
    least the key [found_improvement: bool]"). *)
Definition C_GP_multistart_hyperparameter_optimization (a : EngineArguments)
  : M (list float) :=
  p ← load_OptimizationParameters (arg_optimization_parameters a);
  s ← load_dict (arg_status a);
  match multistart_search a p with
  | Ok (x, improved) =>
      store (arg_status a) (dict (<[found_improvement := improved]> s));;
      mret x
  | Raise e => raise e
  end.

(** Modelled from the spec: [C_GP.evaluate_log_likelihood_at_hyperparameter_list],
    section 4.4, "independent evaluation of [evaluator.compute] at each
    supplied point"; the engine reads [num_to_evaluate] points. *)
Definition C_GP_evaluate_log_likelihood_at_hyperparameter_list
    (hyperparameters_to_evaluate : list (list float))
    (points : list (list float)) (values : list float) (dim num_sampled : Z)
    (kind : LogLikelihoodTypes) (hyperparameters noise : list float)
    (num_to_evaluate : nat) (max_num_threads : Z) : list float :=
  map (fun x => C_GP_compute_log_likelihood points values dim num_sampled kind x noise)
      (take num_to_evaluate hyperparameters_to_evaluate).

(** ** Evaluation methods of class LogLikelihood *)

(** [LogLikelihood.compute_log_likelihood]. *)
Definition compute_log_likelihood (self : loc) (hyperparameters : list float)
  : M float :=
  e ← load_LogLikelihood self;
  set_hyperparameters (_covariance e) hyperparameters;;
  d ← load_HistoricalData (_historical_data e);
  ps ← cppify2 (points_sampled d);
  psv ← cppify (points_sampled_value d);
  n ← dim self;
  nv ← cppify (noise_variance d);
  mret (C_GP_compute_log_likelihood ps psv n (num_sampled d)
          (_log_likelihood_type e) hyperparameters nv).

(** [LogLikelihood.compute_objective_function]. *)
Definition compute_objective_function (self : loc) (current_point : list float)
  : M float :=
  compute_log_likelihood self current_point.

(** [LogLikelihood.compute_grad_log_likelihood]. *)
Definition compute_grad_log_likelihood (self : loc) (hyperparameters : list float)
  : M (list float) :=
  e ← load_LogLikelihood self;
  set_hyperparameters (_covariance e) hyperparameters;;
  d ← load_HistoricalData (_historical_data e);
  ps ← cppify2 (points_sampled d);
  psv ← cppify (points_sampled_value d);
  n ← dim self;
  nv ← cppify (noise_variance d);
  mret (C_GP_compute_hyperparameter_grad_log_likelihood ps psv n (num_sampled d)
          (_log_likelihood_type e) hyperparameters nv).

(** [LogLikelihood.compute_grad_objective_function]. *)
Definition compute_grad_objective_function (self : loc) (current_point : list float)
  : M (list float) :=
  compute_grad_log_likelihood self current_point.

(** ** Module functions *)

(** [evaluate_log_likelihood_at_hyperparameter_list]. *)
Definition evaluate_log_likelihood_at_hyperparameter_list
    (log_likelihood_evaluator : loc) (hyperparameters_to_evaluate : list (list float))
    (max_num_threads : Z) : M (list float) :=
  e ← load_LogLikelihood log_likelihood_evaluator;
  d ← load_HistoricalData (_historical_data e);
  ps ← cppify2 (points_sampled d);
  psv ← cppify (points_sampled_value d);
  hs ← get_hyperparameters (_covariance e);
  nv ← cppify (noise_variance d);
  mret (C_GP_evaluate_log_likelihood_at_hyperparameter_list
          hyperparameters_to_evaluate ps psv (dim_of d) (num_sampled d)
          (_log_likelihood_type e) hs nv
          (length hyperparameters_to_evaluate) max_num_threads).

(** Lines 103-107: the "reasonable" constraints guessed when no domain is
    given ([not hyperparameter_domain] holds for [None] and for an empty
    list). *)
Definition default_interval : ClosedInterval :=
  {| min := (-2)%float; max := 1%float |}.

Definition default_hyperparameter_domain (n : nat) : list ClosedInterval :=
  foldl (fun domain _ => domain ++ [default_interval]) [] (seq 0 n).

Definition hyperparameter_domain_or_default (log_likelihood_evaluator : loc)
    (hyperparameter_domain : option (list ClosedInterval)) : M (list ClosedInterval) :=
  match hyperparameter_domain with
  | Some (i :: domain) => mret (i :: domain)
  | Some [] | None =>
      n ← num_hyperparameters log_likelihood_evaluator;
      mret (default_hyperparameter_domain n)
  end.

(** Lines 109-113: the randomness sources created when none are given;
    [entropy] stands for the less repeatable factors the two randomized
    seed setters read. *)
Definition default_randomness (max_num_threads entropy : Z) : RandomnessSourceContainer :=
  SetRandomizedNormalRNGSeed 0 entropy
    (SetRandomizedUniformGeneratorSeed 0 entropy
       (RandomnessSourceContainer_new max_num_threads)).

Definition randomness_or_default (randomness : option RandomnessSourceContainer)
    (max_num_threads entropy : Z) : RandomnessSourceContainer :=
  match randomness with
  | Some r => r
  | None => default_randomness max_num_threads entropy
  end.

(** Lines 115-117: [status] must be an initialized dict for the call. *)
Definition status_or_fresh (status : option loc) : M loc :=
  match status with
  | Some s => mret s
  | None => alloc (dict ∅)
  end.

(** Line 119: the assignment to the attribute [objective_type] of the
    caller's parameter object. *)
Definition with_objective_type (p : HyperparameterOptimizationParameters)
    (t : LogLikelihoodTypes) : HyperparameterOptimizationParameters :=
  {| objective_type := t; optimizer_type := optimizer_type p;
     num_multistarts := num_multistarts p; max_num_steps := max_num_steps p |}.

Definition set_objective_type (parameters : loc) (t : LogLikelihoodTypes) : M unit :=
  p ← load_OptimizationParameters parameters;
  store parameters (OptimizationParameters (with_objective_type p t)).

(** Lines 103-131 of [multistart_hyperparameter_optimization]: everything
    up to the call into C++, yielding the arguments of that call. *)
Definition multistart_engine_arguments
    (log_likelihood_evaluator hyperparameter_optimization_parameters : loc)
    (hyperparameter_domain : option (list ClosedInterval))
    (randomness : option RandomnessSourceContainer)
    (max_num_threads : Z) (status : option loc) (entropy : Z) : M EngineArguments :=
  domain ← hyperparameter_domain_or_default log_likelihood_evaluator hyperparameter_domain;
  let randomness := randomness_or_default randomness max_num_threads entropy in
  status ← status_or_fresh status;
  e ← load_LogLikelihood log_likelihood_evaluator;
  set_objective_type hyperparameter_optimization_parameters (_log_likelihood_type e);;
  d ← load_HistoricalData (_historical_data e);
  ps ← cppify2 (points_sampled d);
  psv ← cppify (points_sampled_value d);
  hs ← get_hyperparameters (_covariance e);
  nv ← cppify (noise_variance d);
  mret {| arg_optimization_parameters := hyperparameter_optimization_parameters;
          arg_domain := domain;
          arg_points_sampled := ps;
          arg_points_sampled_value := psv;
          arg_dim := dim_of d;
          arg_num_sampled := num_sampled d;
          arg_hyperparameters := hs;
          arg_noise_variance := nv;
          arg_max_num_threads := max_num_threads;
          arg_randomness := randomness;
          arg_status := status |}.

(** [multistart_hyperparameter_optimization]: the arguments are prepared,
    the engine runs, its answer is returned as an array; the status dict
    is not part of the return value. *)
Definition multistart_hyperparameter_optimization
    (log_likelihood_evaluator hyperparameter_optimization_parameters : loc)
    (hyperparameter_domain : option (list ClosedInterval))
    (randomness : option RandomnessSourceContainer)
    (max_num_threads : Z) (status : option loc) (entropy : Z) : M (list float) :=
  a ← multistart_engine_arguments log_likelihood_evaluator
        hyperparameter_optimization_parameters hyperparameter_domain randomness
        max_num_threads status entropy;
  hyperparameters_opt ← C_GP_multistart_hyperparameter_optimization a;
  mret hyperparameters_opt.

End Engine.

(** ** Example stores

    A caller's kernel at reference 1 and a historical data container at
    reference 5 whose three arrays live at 2, 3 and 4: three points
    x = 0, 1, 2 in one dimension with values 0, 1, 0. *)
Definition example_store : heap :=
  <[5%positive := HistoricalData {| dim_of := 1; num_sampled := 3;
                                    points_sampled := 2%positive;
                                    points_sampled_value := 3%positive;
                                    noise_variance := 4%positive |}]>
  (<[4%positive := ndarray [0.25%float; 0.25%float; 0.25%float]]>
  (<[3%positive := ndarray [0%float; 1%float; 0%float]]>
  (<[2%positive := ndarray2 [[0%float]; [1%float]; [2%float]]]>
  (<[1%positive := Covariance [1%float; 0.5%float]]> ∅)))).

(** The store after [LogMarginalLikelihood(covariance, historical_data)],
    resp. [LeaveOneOutLogLikelihood(covariance, historical_data)]; the new
    evaluator is at reference 11. *)
Definition example_lml_store : heap :=
  (LogMarginalLikelihood___init__ 1%positive 5%positive example_store).2.

Definition example_loo_store : heap :=
  (LeaveOneOutLogLikelihood___init__ 1%positive 5%positive example_store).2.

(** An engine to run the examples with: the objective is [-(x0 * x0)], the
    sampler puts every point in a corner of the domain chosen by the
    parity of the uniform generator's seed, the randomized seed adds up
    its three inputs and the iterative optimizers stay where they start. *)
Definition example_objective (x : list float) : float :=
  match x with
  | [] => 0%float
  | x0 :: _ => PrimFloat.opp (PrimFloat.mul x0 x0)
  end.

Definition example_corner (r : RandomnessSourceContainer) (domain : list ClosedInterval)
    (i : nat) : list float :=
  map (fun iv => if Z.even (uniform_generator_seed r + Z.of_nat i) then min iv else max iv)
      domain.

Definition example_engine : GPP := {|
  C_GP_compute_log_likelihood := fun _ _ _ _ _ x _ => example_objective x;
  C_GP_compute_hyperparameter_grad_log_likelihood :=
    fun _ _ _ _ _ x _ => map (fun v => PrimFloat.mul (-2)%float v) x;
  kDefaultSeed := 314;
  randomized_seed := fun base thread_id entropy => base + thread_id + entropy;
  latin_hypercube := fun r domain n => map (example_corner r domain) (seq 0 n);
  gradient_ascent_refine := fun _ _ _ _ start => start;
  newton_refine := fun _ _ _ _ start => start
|}.

(** The example store after the caller has changed the kernel and the
    values array that were passed to the constructor. *)
Definition example_mutated_store : heap :=
  <[1%positive := Covariance [9%float]]>
  (<[3%positive := ndarray [7%float; 7%float; 7%float]]> example_lml_store).

(** The evaluator of [example_lml_store] and the container it owns. *)
Definition example_evaluator : LogLikelihoodObject :=
  {| class_of := LogMarginalLikelihood; _covariance := 6%positive;
     _historical_data := 10%positive;
     _log_likelihood_type := log_marginal_likelihood |}.

Definition example_data : HistoricalDataObject :=
  {| dim_of := 1; num_sampled := 3; points_sampled := 7%positive;
     points_sampled_value := 8%positive; noise_variance := 9%positive |}.

(** A caller's parameter object at reference 12 (asking for a plain search
    from two starting points, with a stale objective type) and a status
    dict at reference 13. *)
Definition example_parameters : HyperparameterOptimizationParameters :=
  {| objective_type := leave_one_out_log_likelihood; optimizer_type := null;
     num_multistarts := 2; max_num_steps := 50 |}.

(** A second parameter object, at reference 14, asking for one start. *)
Definition example_single_start : HyperparameterOptimizationParameters :=
  {| objective_type := log_marginal_likelihood; optimizer_type := null;
     num_multistarts := 1; max_num_steps := 50 |}.

Definition example_call_store : heap :=
  <[14%positive := OptimizationParameters example_single_start]>
  (<[13%positive := dict ∅]>
  (<[12%positive := OptimizationParameters example_parameters]> example_lml_store)).

(** Calls of [multistart_hyperparameter_optimization] in the example call
    store, on the evaluator at 11 with the parameter object at 12 (two
    starts), without a domain and without randomness, for one thread. *)
Definition example_call (status : option loc) (entropy : Z) : result (list float) * heap :=
  multistart_hyperparameter_optimization (engine := example_engine)
    11%positive 12%positive None None 1 status entropy example_call_store.

(** ** Vocabulary of the statements *)

(** A computation that writes nothing. *)
Definition read_only {A} (c : M A) : Prop := forall h : heap, (c h).2 = h.

(** The evaluator at [self] is complete in the store [h]: its kernel holds
    the vector [c], its historical data container [d] refers to the arrays
    [ps], [psv] and [nv]. *)
Record evaluator_in (h : heap) (self : loc) (e : LogLikelihoodObject)
    (c : list float) (d : HistoricalDataObject)
    (ps : list (list float)) (psv nv : list float) : Prop := {
  ev_self : h !! self = Some (LogLikelihoodInstance e);
  ev_covariance : h !! _covariance e = Some (Covariance c);
  ev_historical_data : h !! _historical_data e = Some (HistoricalData d);
  ev_points_sampled : h !! points_sampled d = Some (ndarray2 ps);
  ev_points_sampled_value : h !! points_sampled_value d = Some (ndarray psv);
  ev_noise_variance : h !! noise_variance d = Some (ndarray nv)
}.

(** The store [h'] is [h] with the kernel of the evaluator [e] set to the
    vector [hs] and nothing else changed. *)
Definition kernel_set_only (h : heap) (e : LogLikelihoodObject) (hs : list float)
    (h' : heap) : Prop :=
  h' = <[_covariance e := Covariance hs]> h
  /\ get_hyperparameters (_covariance e) h' = (Ok hs, h')
  /\ (forall l : loc, l <> _covariance e -> h' !! l = h !! l)
  /\ dom h' = dom h.

(** Objects that own no references. *)
Definition is_leaf (o : obj) : bool :=
  match o with
  | HistoricalData _ | LogLikelihoodInstance _ => false
  | _ => true
  end.

(** What a caller sees through an evaluator in the store [h]: the results
    of [compute_log_likelihood], [compute_grad_log_likelihood], [dim] and
    [num_hyperparameters]. *)
Definition observe {engine : GPP} (self : loc) (hyperparameters : list float) (h : heap)
  : result float * result (list float) * result Z * result nat :=
  ((compute_log_likelihood self hyperparameters h).1,
   (compute_grad_log_likelihood self hyperparameters h).1,
   (dim self h).1,
   (num_hyperparameters self h).1).

(** The status dict the engine is handed and the store it is handed in:
    the caller's, or a new empty dict. *)
Definition status_reference (h : heap) (status : option loc) : loc :=
  match status with Some s => s | None => fresh (dom h) end.

Definition status_store (h : heap) (status : option loc) : heap :=
  match status with Some _ => h | None => <[fresh (dom h) := dict ∅]> h end.

(** The domain the engine is handed. *)
Definition engine_domain (hyperparameter_domain : option (list ClosedInterval))
    (n : nat) : list ClosedInterval :=
  match hyperparameter_domain with
  | Some (i :: domain) => i :: domain
  | Some [] | None => replicate n default_interval
  end.

(** The arguments of the engine call on a complete evaluator and a
    parameter object, and the store the engine is called in. *)
Definition prepared_arguments {engine : GPP} (h : heap) (e : LogLikelihoodObject) (c : list float)
    (d : HistoricalDataObject) (ps : list (list float)) (psv nv : list float)
    (parameters : loc) (hyperparameter_domain : option (list ClosedInterval))
    (randomness : option RandomnessSourceContainer) (max_num_threads : Z)
    (status : option loc) (entropy : Z) : EngineArguments :=
  {| arg_optimization_parameters := parameters;
     arg_domain := engine_domain hyperparameter_domain (length c);
     arg_points_sampled := ps;
     arg_points_sampled_value := psv;
     arg_dim := dim_of d;
     arg_num_sampled := num_sampled d;
     arg_hyperparameters := c;
     arg_noise_variance := nv;
     arg_max_num_threads := max_num_threads;
     arg_randomness := randomness_or_default randomness max_num_threads entropy;
     arg_status := status_reference h status |}.

Definition prepared_store (h : heap) (e : LogLikelihoodObject) (parameters : loc)
    (p : HyperparameterOptimizationParameters) (status : option loc) : heap :=
  <[parameters := OptimizationParameters (with_objective_type p (_log_likelihood_type e))]>
    (status_store h status).

(** No refined candidate of the run scores above the first initial guess. *)
Definition no_candidate_improves {engine : GPP} (a : EngineArguments)
    (p : HyperparameterOptimizationParameters) (first : list float) : bool :=
  forallb
    (fun c => negb (PrimFloat.ltb (engine_objective a (objective_type p) first)
                                  (engine_objective a (objective_type p) c)))
    (candidates a p).

(** The value of one evaluation, as the engine computes it from the
    contents of an evaluator. *)
Definition log_likelihood_value {engine : GPP} (e : LogLikelihoodObject)
    (d : HistoricalDataObject) (ps : list (list float)) (psv nv : list float)
    (x : list float) : float :=
  C_GP_compute_log_likelihood ps psv (dim_of d) (num_sampled d)
    (_log_likelihood_type e) x nv.

(** What a caller can do to the store [h1] a constructor left, without
    touching what the constructor created: [h2] differs from [h1] at most
    on objects that already existed in [h0], before the constructor ran,
    and on objects allocated later. *)
Definition caller_mutation (h0 h1 h2 : heap) : Prop :=
  forall l : loc, l ∈ dom h1 -> l ∉ dom h0 -> h2 !! l = h1 !! l.

(** ** Further vocabulary *)

(** The store after
    [LogLikelihood(covariance, historical_data, leave_one_out_log_likelihood)]:
    an instance of the base class configured for LOO-CV, at reference 11. *)
Definition example_base_loo_store : heap :=
  (LogLikelihood___init__ LogLikelihood 1%positive 5%positive
     leave_one_out_log_likelihood example_store).2.

Definition example_base_loo_evaluator : LogLikelihoodObject :=
  {| class_of := LogLikelihood; _covariance := 6%positive;
     _historical_data := 10%positive;
     _log_likelihood_type := leave_one_out_log_likelihood |}.

(** The kernel, the data container and its three arrays are in the store
    [h] as a caller passes them to a constructor. *)
Record constructor_arguments_in (h : heap) (cov hist : loc) (c : list float)
    (d : HistoricalDataObject) (ps : list (list float)) (psv nv : list float)
  : Prop := {
  arg_covariance : h !! cov = Some (Covariance c);
  arg_historical_data : h !! hist = Some (HistoricalData d);
  arg_data_points : h !! points_sampled d = Some (ndarray2 ps);
  arg_data_values : h !! points_sampled_value d = Some (ndarray psv);
  arg_data_noise : h !! noise_variance d = Some (ndarray nv)
}.

(** The original historical data container of the example store. *)
Definition example_original_data : HistoricalDataObject :=
  {| dim_of := 1; num_sampled := 3; points_sampled := 2%positive;
     points_sampled_value := 3%positive; noise_variance := 4%positive |}.

(** A domain no engine would accept for the example kernel: one interval
    for two hyperparameters, with its bounds the wrong way round. *)
Definition example_bad_domain : list ClosedInterval :=
  [{| min := 1%float; max := (-2)%float |}].

Definition example_randomness : RandomnessSourceContainer :=
  {| num_threads := 4; uniform_generator_seed := 7; normal_rng_seeds := [1; 2; 3; 4] |}.

(** * Properties *)

(** ** The monad *)

Lemma bind_Ok {A B} (c : M A) (f : A -> M B) (h h' : heap) (a : A) :
  c h = (Ok a, h') -> (c ≫= f) h = f a h'.
Proof. intros Hc. unfold mbind, M_bind. by rewrite Hc. Qed.

Lemma bind_Raise {A B} (c : M A) (f : A -> M B) (h h' : heap) (e : exn) :
  c h = (Raise e, h') -> (c ≫= f) h = (Raise e, h').
Proof. intros Hc. unfold mbind, M_bind. by rewrite Hc. Qed.

Lemma load_Some (l : loc) (o : obj) (h : heap) :
  h !! l = Some o -> load l h = (Ok o, h).
Proof. intros Hl. unfold load. by rewrite Hl. Qed.

Lemma load_LogLikelihood_Some (l : loc) (e : LogLikelihoodObject) (h : heap) :
  h !! l = Some (LogLikelihoodInstance e) -> load_LogLikelihood l h = (Ok e, h).
Proof.
  intros Hl. unfold load_LogLikelihood.
  by rewrite (bind_Ok _ _ _ _ _ (load_Some _ _ _ Hl)).
Qed.

(** ** Hessians *)

(** C1 (as amended).  On an instance of LogMarginalLikelihood the Hessian
    methods are inherited from LogLikelihood: for every hyperparameter
    vector both [compute_hessian_log_likelihood] and
    [compute_hessian_objective_function] raise NotImplementedError and
    leave the store as it was. *)
Theorem compute_hessian_log_marginal_not_implemented
    (h : heap) (self : loc) (e : LogLikelihoodObject) (hyperparameters : list float) :
  h !! self = Some (LogLikelihoodInstance e) ->
  class_of e = LogMarginalLikelihood ->
  compute_hessian_log_likelihood self hyperparameters h
    = (Raise (NotImplementedError hessian_not_exposed), h)
  /\ compute_hessian_objective_function self hyperparameters h
    = (Raise (NotImplementedError hessian_not_exposed), h).
Proof.
  intros Hself Hcls.
  unfold compute_hessian_objective_function, compute_hessian_log_likelihood.
  rewrite (bind_Ok _ _ _ _ _ (load_LogLikelihood_Some _ _ _ Hself)), Hcls.
  split; reflexivity.
Qed.

Lemma compute_hessian_log_marginal_not_implemented_witness :
  compute_hessian_log_likelihood 11%positive [2%float; 3%float] example_lml_store
    = (Raise (NotImplementedError hessian_not_exposed), example_lml_store)
  /\ compute_hessian_objective_function 11%positive [2%float; 3%float] example_lml_store
    = (Raise (NotImplementedError hessian_not_exposed), example_lml_store).
Proof.
  apply (compute_hessian_log_marginal_not_implemented example_lml_store 11%positive
           {| class_of := LogMarginalLikelihood; _covariance := 6%positive;
              _historical_data := 10%positive;
              _log_likelihood_type := log_marginal_likelihood |}).
  - vm_compute. reflexivity.
  - reflexivity.
Defined.

(** C1 (as stated) fails: the evaluator that [LogMarginalLikelihood] builds
    from the example kernel and data raises NotImplementedError when asked
    for a Hessian. *)
Lemma compute_hessian_log_marginal_raises_example :
  exists (self : loc) (h1 : heap),
    LogMarginalLikelihood___init__ 1%positive 5%positive example_store = (Ok self, h1)
    /\ (compute_hessian_log_likelihood self [2%float; 3%float] h1).1
       = Raise (NotImplementedError hessian_not_exposed)
    /\ (compute_hessian_objective_function self [2%float; 3%float] h1).1
       = Raise (NotImplementedError hessian_not_exposed).
Proof.
  exists 11%positive, example_lml_store.
  split; [|split]; vm_compute; reflexivity.
Qed.

(** C2.  On an instance of LeaveOneOutLogLikelihood,
    [compute_hessian_log_likelihood] raises NotImplementedError for every
    hyperparameter vector: no value is returned, nothing is written. *)
Theorem compute_hessian_leave_one_out_not_implemented
    (h : heap) (self : loc) (e : LogLikelihoodObject) (hyperparameters : list float) :
  h !! self = Some (LogLikelihoodInstance e) ->
  class_of e = LeaveOneOutLogLikelihood ->
  compute_hessian_log_likelihood self hyperparameters h
    = (Raise (NotImplementedError hessian_not_supported_loo), h)
  /\ compute_hessian_objective_function self hyperparameters h
    = (Raise (NotImplementedError hessian_not_supported_loo), h).
Proof.
  intros Hself Hcls.
  unfold compute_hessian_objective_function, compute_hessian_log_likelihood.
  rewrite (bind_Ok _ _ _ _ _ (load_LogLikelihood_Some _ _ _ Hself)), Hcls.
  split; reflexivity.
Qed.

Lemma compute_hessian_leave_one_out_not_implemented_witness :
  compute_hessian_log_likelihood 11%positive [2%float; 3%float] example_loo_store
    = (Raise (NotImplementedError hessian_not_supported_loo), example_loo_store)
  /\ compute_hessian_objective_function 11%positive [2%float; 3%float] example_loo_store
    = (Raise (NotImplementedError hessian_not_supported_loo), example_loo_store).
Proof.
  apply (compute_hessian_leave_one_out_not_implemented example_loo_store 11%positive
           {| class_of := LeaveOneOutLogLikelihood; _covariance := 6%positive;
              _historical_data := 10%positive;
              _log_likelihood_type := leave_one_out_log_likelihood |}).
  - vm_compute. reflexivity.
  - reflexivity.
Defined.

(** ** Reads and writes of the store *)

Lemma load_ndarray_Some (l : loc) (a : list float) (h : heap) :
  h !! l = Some (ndarray a) -> load_ndarray l h = (Ok a, h).
Proof.
  intros Hl. unfold load_ndarray.
  by rewrite (bind_Ok _ _ _ _ _ (load_Some _ _ _ Hl)).
Qed.

Lemma load_ndarray2_Some (l : loc) (a : list (list float)) (h : heap) :
  h !! l = Some (ndarray2 a) -> load_ndarray2 l h = (Ok a, h).
Proof.
  intros Hl. unfold load_ndarray2.
  by rewrite (bind_Ok _ _ _ _ _ (load_Some _ _ _ Hl)).
Qed.

Lemma load_HistoricalData_Some (l : loc) (d : HistoricalDataObject) (h : heap) :
  h !! l = Some (HistoricalData d) -> load_HistoricalData l h = (Ok d, h).
Proof.
  intros Hl. unfold load_HistoricalData.
  by rewrite (bind_Ok _ _ _ _ _ (load_Some _ _ _ Hl)).
Qed.

Lemma load_OptimizationParameters_Some (l : loc)
    (p : HyperparameterOptimizationParameters) (h : heap) :
  h !! l = Some (OptimizationParameters p) ->
  load_OptimizationParameters l h = (Ok p, h).
Proof.
  intros Hl. unfold load_OptimizationParameters.
  by rewrite (bind_Ok _ _ _ _ _ (load_Some _ _ _ Hl)).
Qed.

Lemma load_dict_Some (l : loc) (s : gmap string bool) (h : heap) :
  h !! l = Some (dict s) -> load_dict l h = (Ok s, h).
Proof.
  intros Hl. unfold load_dict.
  by rewrite (bind_Ok _ _ _ _ _ (load_Some _ _ _ Hl)).
Qed.

Lemma get_hyperparameters_Some (l : loc) (c : list float) (h : heap) :
  h !! l = Some (Covariance c) -> get_hyperparameters l h = (Ok c, h).
Proof.
  intros Hl. unfold get_hyperparameters.
  by rewrite (bind_Ok _ _ _ _ _ (load_Some _ _ _ Hl)).
Qed.

Lemma set_hyperparameters_Some (l : loc) (c hs : list float) (h : heap) :
  h !! l = Some (Covariance c) ->
  set_hyperparameters l hs h = (Ok tt, <[l := Covariance hs]> h).
Proof.
  intros Hl. unfold set_hyperparameters.
  by rewrite (bind_Ok _ _ _ _ _ (load_Some _ _ _ Hl)).
Qed.

Lemma read_only_ret {A} (a : A) : read_only (mret a : M A).
Proof. by intros h. Qed.

Lemma read_only_raise {A} (e : exn) : read_only (raise e : M A).
Proof. by intros h. Qed.

Lemma read_only_load (l : loc) : read_only (load l).
Proof. intros h. unfold load. by destruct (h !! l). Qed.

Lemma read_only_bind {A B} (c : M A) (f : A -> M B) :
  read_only c -> (forall a, read_only (f a)) -> read_only (c ≫= f).
Proof.
  intros Hc Hf h. unfold mbind, M_bind.
  specialize (Hc h). destruct (c h) as [[a|e] h']; simpl in Hc; subst h'.
  - apply Hf.
  - reflexivity.
Qed.

Create HintDb readonly.
#[local] Hint Resolve read_only_ret read_only_raise read_only_load : readonly.

Ltac read_only_tac :=
  repeat first
    [ apply read_only_bind; [| intros ?]
    | progress eauto with readonly
    | match goal with |- read_only (match ?x with _ => _ end) => is_var x; destruct x end ].

Lemma read_only_load_ndarray (l : loc) : read_only (load_ndarray l).
Proof. unfold load_ndarray. read_only_tac. Qed.

Lemma read_only_load_ndarray2 (l : loc) : read_only (load_ndarray2 l).
Proof. unfold load_ndarray2. read_only_tac. Qed.

Lemma read_only_load_HistoricalData (l : loc) : read_only (load_HistoricalData l).
Proof. unfold load_HistoricalData. read_only_tac. Qed.

Lemma read_only_load_LogLikelihood (l : loc) : read_only (load_LogLikelihood l).
Proof. unfold load_LogLikelihood. read_only_tac. Qed.

Lemma read_only_get_hyperparameters (l : loc) : read_only (get_hyperparameters l).
Proof. unfold get_hyperparameters. read_only_tac. Qed.

Lemma read_only_load_OptimizationParameters (l : loc) :
  read_only (load_OptimizationParameters l).
Proof. unfold load_OptimizationParameters. read_only_tac. Qed.

#[local] Hint Resolve read_only_load_ndarray read_only_load_ndarray2
  read_only_load_HistoricalData read_only_load_LogLikelihood
  read_only_get_hyperparameters : readonly.

Lemma read_only_dim (self : loc) : read_only (dim self).
Proof. unfold dim. read_only_tac. Qed.

Lemma read_only_num_hyperparameters (self : loc) : read_only (num_hyperparameters self).
Proof. unfold num_hyperparameters, covariance_num_hyperparameters. read_only_tac. Qed.

#[local] Hint Resolve read_only_dim read_only_num_hyperparameters : readonly.

(** A complete evaluator keeps its kernel, its data container and itself
    at three different references. *)
Lemma evaluator_in_distinct h self e c d ps psv nv :
  evaluator_in h self e c d ps psv nv ->
  _covariance e <> self /\ _covariance e <> _historical_data e
  /\ _covariance e <> points_sampled d /\ _covariance e <> points_sampled_value d
  /\ _covariance e <> noise_variance d.
Proof.
  intros [H1 H2 H3 H4 H5 H6].
  repeat split; intros Heq; rewrite Heq in H2; congruence.
Qed.

(** Writing the kernel's vector keeps an evaluator complete. *)
Lemma evaluator_in_set_hyperparameters h self e c d ps psv nv hs :
  evaluator_in h self e c d ps psv nv ->
  evaluator_in (<[_covariance e := Covariance hs]> h) self e hs d ps psv nv.
Proof.
  intros Hev.
  destruct (evaluator_in_distinct _ _ _ _ _ _ _ _ Hev) as (Ns & Nh & Np & Nv & Nn).
  destruct Hev as [E1 E2 E3 E4 E5 E6].
  split; by simplify_map_eq.
Qed.

Section Evaluator.
Context {engine : GPP}.

(** ** What the methods compute on a complete evaluator *)

Lemma dim_run h self e c d ps psv nv :
  evaluator_in h self e c d ps psv nv -> dim self h = (Ok (dim_of d), h).
Proof.
  intros [E1 E2 E3 E4 E5 E6]. unfold dim.
  rewrite (bind_Ok _ _ _ _ _ (load_LogLikelihood_Some _ _ _ E1)).
  by rewrite (bind_Ok _ _ _ _ _ (load_HistoricalData_Some _ _ _ E3)).
Qed.

Lemma num_hyperparameters_run h self e c d ps psv nv :
  evaluator_in h self e c d ps psv nv ->
  num_hyperparameters self h = (Ok (length c), h).
Proof.
  intros [E1 E2 E3 E4 E5 E6]. unfold num_hyperparameters, covariance_num_hyperparameters.
  rewrite (bind_Ok _ _ _ _ _ (load_LogLikelihood_Some _ _ _ E1)).
  by rewrite (bind_Ok _ _ _ _ _ (get_hyperparameters_Some _ _ _ E2)).
Qed.

Lemma compute_log_likelihood_run h self e c d ps psv nv hs :
  evaluator_in h self e c d ps psv nv ->
  compute_log_likelihood self hs h
  = (Ok (C_GP_compute_log_likelihood ps psv (dim_of d) (num_sampled d)
           (_log_likelihood_type e) hs nv),
     <[_covariance e := Covariance hs]> h).
Proof.
  intros Hev.
  pose proof (evaluator_in_set_hyperparameters _ _ _ _ _ _ _ _ hs Hev) as Hev'.
  pose proof (dim_run _ _ _ _ _ _ _ _ Hev') as Hdim.
  destruct Hev as [E1 E2 E3 E4 E5 E6]. destruct Hev' as [F1 F2 F3 F4 F5 F6].
  unfold compute_log_likelihood, cppify, cppify2.
  rewrite (bind_Ok _ _ _ _ _ (load_LogLikelihood_Some _ _ _ E1)).
  rewrite (bind_Ok _ _ _ _ _ (set_hyperparameters_Some _ _ hs _ E2)).
  rewrite (bind_Ok _ _ _ _ _ (load_HistoricalData_Some _ _ _ F3)).
  rewrite (bind_Ok _ _ _ _ _ (load_ndarray2_Some _ _ _ F4)).
  rewrite (bind_Ok _ _ _ _ _ (load_ndarray_Some _ _ _ F5)).
  rewrite (bind_Ok _ _ _ _ _ Hdim).
  by rewrite (bind_Ok _ _ _ _ _ (load_ndarray_Some _ _ _ F6)).
Qed.

Lemma compute_grad_log_likelihood_run h self e c d ps psv nv hs :
  evaluator_in h self e c d ps psv nv ->
  compute_grad_log_likelihood self hs h
  = (Ok (C_GP_compute_hyperparameter_grad_log_likelihood ps psv (dim_of d)
           (num_sampled d) (_log_likelihood_type e) hs nv),
     <[_covariance e := Covariance hs]> h).
Proof.
  intros Hev.
  pose proof (evaluator_in_set_hyperparameters _ _ _ _ _ _ _ _ hs Hev) as Hev'.
  pose proof (dim_run _ _ _ _ _ _ _ _ Hev') as Hdim.
  destruct Hev as [E1 E2 E3 E4 E5 E6]. destruct Hev' as [F1 F2 F3 F4 F5 F6].
  unfold compute_grad_log_likelihood, cppify, cppify2.
  rewrite (bind_Ok _ _ _ _ _ (load_LogLikelihood_Some _ _ _ E1)).
  rewrite (bind_Ok _ _ _ _ _ (set_hyperparameters_Some _ _ hs _ E2)).
  rewrite (bind_Ok _ _ _ _ _ (load_HistoricalData_Some _ _ _ F3)).
  rewrite (bind_Ok _ _ _ _ _ (load_ndarray2_Some _ _ _ F4)).
  rewrite (bind_Ok _ _ _ _ _ (load_ndarray_Some _ _ _ F5)).
  rewrite (bind_Ok _ _ _ _ _ Hdim).
  by rewrite (bind_Ok _ _ _ _ _ (load_ndarray_Some _ _ _ F6)).
Qed.

(** After the kernel has been set, the rest of an evaluation only reads. *)
Lemma set_then_read_only {A} (self : loc) (hs : list float)
    (rest : LogLikelihoodObject -> M A) (h : heap) (e : LogLikelihoodObject)
    (c : list float) :
  (forall e', read_only (rest e')) ->
  h !! self = Some (LogLikelihoodInstance e) ->
  h !! _covariance e = Some (Covariance c) ->
  ((e' ← load_LogLikelihood self;
    set_hyperparameters (_covariance e') hs;; rest e') h).2
  = <[_covariance e := Covariance hs]> h.
Proof.
  intros Hrest Hself Hcov.
  rewrite (bind_Ok _ _ _ _ _ (load_LogLikelihood_Some _ _ _ Hself)).
  rewrite (bind_Ok _ _ _ _ _ (set_hyperparameters_Some _ _ hs _ Hcov)).
  apply Hrest.
Qed.

(** C6.  A call of [compute_log_likelihood] or of
    [compute_grad_log_likelihood] on an evaluator whose kernel is in place
    ends, whether it returns or raises, in the store that differs from the
    initial one exactly in the evaluator's kernel object, which now holds
    the vector passed as the argument: the getter reads that vector back,
    and every other object of the store is as before. *)
Theorem compute_sets_kernel_hyperparameters
    (h : heap) (self : loc) (e : LogLikelihoodObject) (c hyperparameters : list float) :
  h !! self = Some (LogLikelihoodInstance e) ->
  h !! _covariance e = Some (Covariance c) ->
  kernel_set_only h e hyperparameters (compute_log_likelihood self hyperparameters h).2
  /\ kernel_set_only h e hyperparameters
       (compute_grad_log_likelihood self hyperparameters h).2.
Proof.
  intros Hself Hcov.
  assert (Hset : forall h', h' = <[_covariance e := Covariance hyperparameters]> h ->
                            kernel_set_only h e hyperparameters h').
  { intros h' ->. split; [done|]. split; [|split].
    - apply get_hyperparameters_Some with (c := hyperparameters).
      by rewrite lookup_insert_eq.
    - intros l Hl. by rewrite lookup_insert_ne.
    - apply dom_insert_lookup_L. by exists (Covariance c). }
  split; apply Hset.
  - unfold compute_log_likelihood.
    apply (set_then_read_only self hyperparameters _ h e c); [|done..].
    intros e'. unfold cppify, cppify2. read_only_tac.
  - unfold compute_grad_log_likelihood.
    apply (set_then_read_only self hyperparameters _ h e c); [|done..].
    intros e'. unfold cppify, cppify2. read_only_tac.
Qed.

End Evaluator.

(** ** Construction *)

Lemma alloc_spec (o : obj) (h : heap) :
  exists (l : loc) (h' : heap),
    alloc o h = (Ok l, h') /\ h !! l = None /\ h ⊆ h' /\ h' !! l = Some o.
Proof.
  exists (fresh (dom h)), (<[fresh (dom h) := o]> h).
  assert (Hfresh : h !! fresh (dom h) = None).
  { apply not_elem_of_dom. apply is_fresh. }
  split; [reflexivity|]. split; [done|]. split.
  - by apply insert_subseteq.
  - apply lookup_insert_eq.
Qed.

Lemma deepcopy_leaf_spec (l : loc) (o : obj) (h : heap) :
  h !! l = Some o -> is_leaf o = true ->
  exists (l' : loc) (h' : heap),
    deepcopy_leaf l h = (Ok l', h') /\ h !! l' = None /\ h ⊆ h' /\ h' !! l' = Some o.
Proof.
  intros Hl Hleaf. destruct (alloc_spec o h) as (l' & h' & Ha & Hnew & Hsub & Hl').
  exists l', h'. split; [|done].
  unfold deepcopy_leaf. rewrite (bind_Ok _ _ _ _ _ (load_Some _ _ _ Hl)).
  by destruct o.
Qed.

Lemma deepcopy_Covariance_spec (l : loc) (c : list float) (h : heap) :
  h !! l = Some (Covariance c) ->
  exists (l' : loc) (h' : heap),
    deepcopy l h = (Ok l', h') /\ h !! l' = None /\ h ⊆ h'
    /\ h' !! l' = Some (Covariance c).
Proof.
  intros Hl.
  destruct (alloc_spec (Covariance c) h) as (l' & h' & Ha & Hnew & Hsub & Hl').
  exists l', h'. split; [|done].
  unfold deepcopy. by rewrite (bind_Ok _ _ _ _ _ (load_Some _ _ _ Hl)).
Qed.

(** The deep copy of a historical data container: a new container with
    the same scalars whose three arrays are new too and hold the contents
    of the originals. *)
Lemma deepcopy_HistoricalData_spec (l : loc) (d : HistoricalDataObject)
    (ps : list (list float)) (psv nv : list float) (h : heap) :
  h !! l = Some (HistoricalData d) ->
  h !! points_sampled d = Some (ndarray2 ps) ->
  h !! points_sampled_value d = Some (ndarray psv) ->
  h !! noise_variance d = Some (ndarray nv) ->
  exists (l' : loc) (h' : heap) (d' : HistoricalDataObject),
    deepcopy l h = (Ok l', h') /\ h ⊆ h'
    /\ dim_of d' = dim_of d /\ num_sampled d' = num_sampled d
    /\ h' !! l' = Some (HistoricalData d')
    /\ h' !! points_sampled d' = Some (ndarray2 ps)
    /\ h' !! points_sampled_value d' = Some (ndarray psv)
    /\ h' !! noise_variance d' = Some (ndarray nv)
    /\ h !! l' = None
    /\ h !! points_sampled d' = None
    /\ h !! points_sampled_value d' = None
    /\ h !! noise_variance d' = None.
Proof.
  intros Hl Hps Hpsv Hnv.
  destruct (deepcopy_leaf_spec _ _ h Hps eq_refl) as (a1 & h1 & R1 & N1 & S1 & L1).
  pose proof (lookup_weaken _ _ _ _ Hpsv S1) as Hpsv1.
  destruct (deepcopy_leaf_spec _ _ h1 Hpsv1 eq_refl) as (a2 & h2 & R2 & N2 & S2 & L2).
  pose proof (lookup_weaken _ _ _ _ (lookup_weaken _ _ _ _ Hnv S1) S2) as Hnv2.
  destruct (deepcopy_leaf_spec _ _ h2 Hnv2 eq_refl) as (a3 & h3 & R3 & N3 & S3 & L3).
  set (d' := {| dim_of := dim_of d; num_sampled := num_sampled d;
                points_sampled := a1; points_sampled_value := a2;
                noise_variance := a3 |}).
  destruct (alloc_spec (HistoricalData d') h3) as (l' & h4 & R4 & N4 & S4 & L4).
  assert (S12 : h ⊆ h2) by (by etrans).
  assert (S13 : h ⊆ h3) by (by etrans).
  exists l', h4, d'. split.
  { unfold deepcopy. rewrite (bind_Ok _ _ _ _ _ (load_Some _ _ _ Hl)).
    rewrite (bind_Ok _ _ _ _ _ R1), (bind_Ok _ _ _ _ _ R2), (bind_Ok _ _ _ _ _ R3).
    exact R4. }
  split; [by etrans|]. split; [done|]. split; [done|]. split; [done|].
  split. { simpl. eapply lookup_weaken; [exact L1|]. etrans; [exact S2|]. by etrans. }
  split. { simpl. eapply lookup_weaken; [exact L2|]. by etrans. }
  split. { simpl. eapply lookup_weaken; [exact L3|]. done. }
  split. { eapply lookup_weaken_None; [exact N4|done]. }
  split. { done. }
  split. { simpl. eapply lookup_weaken_None; [exact N2|done]. }
  simpl. eapply lookup_weaken_None; [exact N3|done].
Qed.

(** The constructor on a kernel and a complete historical data container:
    it returns an evaluator that is complete in the new store, made of six
    objects none of which existed before, with the contents the arguments
    had when it ran. *)
Lemma LogLikelihood___init___spec (cls : LogLikelihoodClass) (cov hist : loc)
    (t : LogLikelihoodTypes) (c : list float) (d : HistoricalDataObject)
    (ps : list (list float)) (psv nv : list float) (h0 : heap) :
  h0 !! cov = Some (Covariance c) ->
  h0 !! hist = Some (HistoricalData d) ->
  h0 !! points_sampled d = Some (ndarray2 ps) ->
  h0 !! points_sampled_value d = Some (ndarray psv) ->
  h0 !! noise_variance d = Some (ndarray nv) ->
  exists (self : loc) (h1 : heap) (e : LogLikelihoodObject) (d' : HistoricalDataObject),
    LogLikelihood___init__ cls cov hist t h0 = (Ok self, h1)
    /\ h0 ⊆ h1
    /\ class_of e = cls /\ _log_likelihood_type e = t
    /\ dim_of d' = dim_of d /\ num_sampled d' = num_sampled d
    /\ evaluator_in h1 self e c d' ps psv nv
    /\ Forall (fun l => h0 !! l = None)
         [self; _covariance e; _historical_data e;
          points_sampled d'; points_sampled_value d'; noise_variance d'].
Proof.
  intros Hcov Hhist Hps Hpsv Hnv.
  destruct (deepcopy_Covariance_spec _ _ h0 Hcov) as (c' & h1 & R1 & N1 & S1 & L1).
  destruct (deepcopy_HistoricalData_spec hist d ps psv nv h1)
    as (hd' & h2 & d' & R2 & S2 & Hdim & Hnum & L2 & Lps & Lpsv & Lnv
        & N2 & Nps & Npsv & Nnv);
    [by eapply lookup_weaken..|].
  set (e := {| class_of := cls; _covariance := c'; _historical_data := hd';
               _log_likelihood_type := t |}).
  destruct (alloc_spec (LogLikelihoodInstance e) h2) as (self & h3 & R3 & N3 & S3 & L3).
  assert (S02 : h0 ⊆ h2) by (by etrans).
  exists self, h3, e, d'. split.
  { unfold LogLikelihood___init__.
    rewrite (bind_Ok _ _ _ _ _ R1), (bind_Ok _ _ _ _ _ R2). exact R3. }
  split; [by etrans|]. do 4 (split; [done|]). split.
  - split; simpl; try done; eapply lookup_weaken; try eassumption.
    by etrans.
  - repeat constructor; simpl; try done;
      eapply lookup_weaken_None; try eassumption; done.
Qed.

Section Ownership.
Context {engine : GPP}.

Lemma observe_run h self e c d ps psv nv hs :
  evaluator_in h self e c d ps psv nv ->
  observe self hs h
  = (Ok (C_GP_compute_log_likelihood ps psv (dim_of d) (num_sampled d)
           (_log_likelihood_type e) hs nv),
     Ok (C_GP_compute_hyperparameter_grad_log_likelihood ps psv (dim_of d)
           (num_sampled d) (_log_likelihood_type e) hs nv),
     Ok (dim_of d), Ok (length c)).
Proof.
  intros Hev. unfold observe.
  rewrite (compute_log_likelihood_run _ _ _ _ _ _ _ _ hs Hev).
  rewrite (compute_grad_log_likelihood_run _ _ _ _ _ _ _ _ hs Hev).
  rewrite (dim_run _ _ _ _ _ _ _ _ Hev).
  by rewrite (num_hyperparameters_run _ _ _ _ _ _ _ _ Hev).
Qed.

(** An evaluator whose six objects were created after [h0] is still
    complete, with the same contents, after anything a caller does to the
    objects of [h0]. *)
Lemma evaluator_in_caller_mutation h0 h1 h2 self e c d ps psv nv :
  evaluator_in h1 self e c d ps psv nv ->
  Forall (fun l => h0 !! l = None)
    [self; _covariance e; _historical_data e;
     points_sampled d; points_sampled_value d; noise_variance d] ->
  caller_mutation h0 h1 h2 ->
  evaluator_in h2 self e c d ps psv nv.
Proof.
  intros [E1 E2 E3 E4 E5 E6] Hnew Hmut.
  assert (Hkeep : forall l o, h1 !! l = Some o -> h0 !! l = None -> h2 !! l = Some o).
  { intros l o Hl Hn. rewrite <- Hl. apply Hmut.
    - by apply elem_of_dom_2 in Hl.
    - by apply not_elem_of_dom. }
  rewrite !Forall_cons in Hnew. destruct Hnew as (N1 & N2 & N3 & N4 & N5 & N6 & _).
  split; by apply Hkeep.
Qed.

(** C5.  [LogLikelihood.__init__] on a kernel and a historical data
    container (with its three arrays) returns an evaluator built on
    private copies: whatever the caller afterwards does to the objects
    that existed when the constructor ran, the kernel, the container and
    the arrays it passed among them, [compute_log_likelihood],
    [compute_grad_log_likelihood], [dim] and [num_hyperparameters] give
    the results they give right after construction, which are those of
    the contents at construction time. *)
Theorem evaluator_owns_private_copies
    (cls : LogLikelihoodClass) (cov hist : loc) (t : LogLikelihoodTypes)
    (c : list float) (d : HistoricalDataObject)
    (ps : list (list float)) (psv nv : list float) (h0 : heap) :
  h0 !! cov = Some (Covariance c) ->
  h0 !! hist = Some (HistoricalData d) ->
  h0 !! points_sampled d = Some (ndarray2 ps) ->
  h0 !! points_sampled_value d = Some (ndarray psv) ->
  h0 !! noise_variance d = Some (ndarray nv) ->
  exists (self : loc) (h1 : heap),
    LogLikelihood___init__ cls cov hist t h0 = (Ok self, h1)
    /\ forall (h2 : heap) (hyperparameters : list float),
         caller_mutation h0 h1 h2 ->
         observe self hyperparameters h2 = observe self hyperparameters h1
         /\ observe self hyperparameters h1
            = (Ok (C_GP_compute_log_likelihood ps psv (dim_of d) (num_sampled d) t
                     hyperparameters nv),
               Ok (C_GP_compute_hyperparameter_grad_log_likelihood ps psv (dim_of d)
                     (num_sampled d) t hyperparameters nv),
               Ok (dim_of d), Ok (length c)).
Proof.
  intros Hcov Hhist Hps Hpsv Hnv.
  destruct (LogLikelihood___init___spec cls cov hist t c d ps psv nv h0)
    as (self & h1 & e & d' & Hrun & Hsub & Hcls & Ht & Hdim & Hnum & Hev & Hnew);
    [done..|].
  exists self, h1. split; [exact Hrun|].
  intros h2 hs Hmut.
  pose proof (evaluator_in_caller_mutation _ _ _ _ _ _ _ _ _ _ Hev Hnew Hmut) as Hev2.
  rewrite (observe_run _ _ _ _ _ _ _ _ hs Hev2), (observe_run _ _ _ _ _ _ _ _ hs Hev).
  by rewrite Ht, Hdim, Hnum.
Qed.

End Ownership.

(** Overwriting the kernel and the values array the caller passed to the
    constructor is such a mutation. *)
Example example_caller_mutation :
  caller_mutation example_store example_lml_store example_mutated_store.
Proof.
  intros l Hin Hout. unfold example_mutated_store.
  rewrite !lookup_insert_ne; [done|..]; intros <-; apply Hout;
    apply elem_of_dom; eexists; vm_compute; reflexivity.
Qed.

Lemma evaluator_owns_private_copies_witness :
  exists (self : loc) (h1 : heap),
    LogLikelihood___init__ LogMarginalLikelihood 1%positive 5%positive
      log_marginal_likelihood example_store = (Ok self, h1)
    /\ forall (h2 : heap) (hyperparameters : list float),
         caller_mutation example_store h1 h2 ->
         observe (engine := example_engine) self hyperparameters h2
         = observe (engine := example_engine) self hyperparameters h1
         /\ observe (engine := example_engine) self hyperparameters h1
            = (Ok (example_objective hyperparameters),
               Ok (map (fun v => PrimFloat.mul (-2)%float v) hyperparameters),
               Ok 1, Ok 2%nat).
Proof.
  apply (evaluator_owns_private_copies (engine := example_engine)
           LogMarginalLikelihood 1%positive 5%positive log_marginal_likelihood
           [1%float; 0.5%float]
           {| dim_of := 1; num_sampled := 3; points_sampled := 2%positive;
              points_sampled_value := 3%positive; noise_variance := 4%positive |}
           [[0%float]; [1%float]; [2%float]] [0%float; 1%float; 0%float]
           [0.25%float; 0.25%float; 0.25%float] example_store);
    vm_compute; reflexivity.
Defined.

(** The caller's later writes, run: the evaluator built from the example
    store answers the same before and after them. *)
Example observe_example_mutated :
  observe (engine := example_engine) 11%positive [3%float; 1%float] example_mutated_store
  = observe (engine := example_engine) 11%positive [3%float; 1%float] example_lml_store.
Proof. vm_compute. reflexivity. Qed.

Section Batch.
Context {engine : GPP}.

(** ** Batch evaluation *)

(** Evaluating a list of vectors one call after the other returns their
    values and keeps the evaluator complete. *)
Lemma mapM_compute_log_likelihood_run (hss : list (list float)) :
  forall h self e c d ps psv nv,
    evaluator_in h self e c d ps psv nv ->
    exists (h' : heap) (c' : list float),
      mapM (compute_log_likelihood self) hss h
      = (Ok (map (log_likelihood_value e d ps psv nv) hss), h')
      /\ evaluator_in h' self e c' d ps psv nv.
Proof.
  induction hss as [|hs hss IH]; intros h self e c d ps psv nv Hev.
  - exists h, c. by split.
  - pose proof (evaluator_in_set_hyperparameters _ _ _ _ _ _ _ _ hs Hev) as Hev'.
    destruct (IH _ _ _ _ _ _ _ _ Hev') as (h' & c' & Hrun & Hev'').
    exists h', c'. split; [|done].
    change (mapM (compute_log_likelihood self) (hs :: hss))
      with (y ← compute_log_likelihood self hs;
            k ← mapM (compute_log_likelihood self) hss; mret (y :: k)).
    rewrite (bind_Ok _ _ _ _ _ (compute_log_likelihood_run _ _ _ _ _ _ _ _ hs Hev)).
    by rewrite (bind_Ok _ _ _ _ _ Hrun).
Qed.

Lemma evaluate_log_likelihood_at_hyperparameter_list_run
    h self e c d ps psv nv (hss : list (list float)) (max_num_threads : Z) :
  evaluator_in h self e c d ps psv nv ->
  evaluate_log_likelihood_at_hyperparameter_list self hss max_num_threads h
  = (Ok (map (log_likelihood_value e d ps psv nv) hss), h).
Proof.
  intros [E1 E2 E3 E4 E5 E6].
  unfold evaluate_log_likelihood_at_hyperparameter_list, cppify, cppify2.
  rewrite (bind_Ok _ _ _ _ _ (load_LogLikelihood_Some _ _ _ E1)).
  rewrite (bind_Ok _ _ _ _ _ (load_HistoricalData_Some _ _ _ E3)).
  rewrite (bind_Ok _ _ _ _ _ (load_ndarray2_Some _ _ _ E4)).
  rewrite (bind_Ok _ _ _ _ _ (load_ndarray_Some _ _ _ E5)).
  rewrite (bind_Ok _ _ _ _ _ (get_hyperparameters_Some _ _ _ E2)).
  rewrite (bind_Ok _ _ _ _ _ (load_ndarray_Some _ _ _ E6)).
  unfold C_GP_evaluate_log_likelihood_at_hyperparameter_list.
  by rewrite firstn_all.
Qed.

(** C7.  On a complete evaluator and any list of hyperparameter vectors,
    [evaluate_log_likelihood_at_hyperparameter_list] returns the list that
    the calls [compute_log_likelihood(h1)], ..., [compute_log_likelihood(hn)],
    made one after the other, return: both succeed, with one value per
    vector, equal position by position. *)
Theorem evaluate_at_list_is_elementwise_compute
    (h : heap) (self : loc) (e : LogLikelihoodObject) (c : list float)
    (d : HistoricalDataObject) (ps : list (list float)) (psv nv : list float)
    (hyperparameters_to_evaluate : list (list float)) (max_num_threads : Z) :
  evaluator_in h self e c d ps psv nv ->
  exists values : list float,
    (evaluate_log_likelihood_at_hyperparameter_list self hyperparameters_to_evaluate
       max_num_threads h).1 = Ok values
    /\ (mapM (compute_log_likelihood self) hyperparameters_to_evaluate h).1 = Ok values
    /\ length values = length hyperparameters_to_evaluate
    /\ forall (i : nat) (x : list float),
         hyperparameters_to_evaluate !! i = Some x ->
         exists v : float,
           values !! i = Some v /\ (compute_log_likelihood self x h).1 = Ok v.
Proof.
  intros Hev.
  exists (map (log_likelihood_value e d ps psv nv) hyperparameters_to_evaluate).
  rewrite (evaluate_log_likelihood_at_hyperparameter_list_run _ _ _ _ _ _ _ _ _ _ Hev).
  destruct (mapM_compute_log_likelihood_run hyperparameters_to_evaluate
              _ _ _ _ _ _ _ _ Hev) as (h' & c' & -> & _).
  split; [done|]. split; [done|]. split; [by rewrite length_map|].
  intros i x Hi. exists (log_likelihood_value e d ps psv nv x). split.
  - by rewrite list_lookup_fmap, Hi.
  - by rewrite (compute_log_likelihood_run _ _ _ _ _ _ _ _ x Hev).
Qed.

End Batch.

Lemma evaluate_at_list_is_elementwise_compute_witness :
  exists values : list float,
    (evaluate_log_likelihood_at_hyperparameter_list (engine := example_engine)
       11%positive [[1%float; 2%float]; [3%float; 4%float]; [0.5%float; 1%float]]
       1 example_lml_store).1 = Ok values
    /\ (mapM (compute_log_likelihood (engine := example_engine) 11%positive)
          [[1%float; 2%float]; [3%float; 4%float]; [0.5%float; 1%float]]
          example_lml_store).1 = Ok values
    /\ length values = 3%nat
    /\ forall (i : nat) (x : list float),
         [[1%float; 2%float]; [3%float; 4%float]; [0.5%float; 1%float]] !! i = Some x ->
         exists v : float,
           values !! i = Some v
           /\ (compute_log_likelihood (engine := example_engine) 11%positive x
                 example_lml_store).1 = Ok v.
Proof.
  apply (evaluate_at_list_is_elementwise_compute (engine := example_engine)
           example_lml_store 11%positive example_evaluator
           [1%float; 0.5%float] example_data
           [[0%float]; [1%float]; [2%float]] [0%float; 1%float; 0%float]
           [0.25%float; 0.25%float; 0.25%float]
           [[1%float; 2%float]; [3%float; 4%float]; [0.5%float; 1%float]] 1).
  split; vm_compute; reflexivity.
Defined.

Lemma compute_sets_kernel_hyperparameters_witness :
  kernel_set_only example_lml_store example_evaluator [2%float; 3%float]
    (compute_log_likelihood (engine := example_engine) 11%positive [2%float; 3%float]
       example_lml_store).2
  /\ kernel_set_only example_lml_store example_evaluator [2%float; 3%float]
       (compute_grad_log_likelihood (engine := example_engine) 11%positive
          [2%float; 3%float] example_lml_store).2.
Proof.
  apply (compute_sets_kernel_hyperparameters (engine := example_engine)
           example_lml_store 11%positive example_evaluator [1%float; 0.5%float]
           [2%float; 3%float]);
    vm_compute; reflexivity.
Defined.

(** ** Preparing the engine call *)

Lemma default_hyperparameter_domain_replicate (n : nat) :
  default_hyperparameter_domain n = replicate n default_interval.
Proof.
  unfold default_hyperparameter_domain.
  enough (Hgen : forall (k : nat) (acc : list ClosedInterval),
             foldl (fun domain _ => domain ++ [default_interval]) acc (seq k n)
             = acc ++ replicate n default_interval) by apply (Hgen 0%nat []).
  induction n as [|n IH]; intros k acc; simpl.
  - by rewrite app_nil_r.
  - rewrite IH. by rewrite <- app_assoc.
Qed.

Lemma bind_ret_r {A} (c : M A) (h : heap) : (a ← c; mret a) h = c h.
Proof. unfold mbind, M_bind. by destruct (c h) as [[a|e] h']. Qed.

Lemma read_only_inv {A} (c : M A) (h h' : heap) (r : result A) :
  read_only c -> c h = (r, h') -> h' = h.
Proof. intros Hc Hrun. specialize (Hc h). by rewrite Hrun in Hc. Qed.

Lemma evaluator_in_weaken h h' self e c d ps psv nv :
  h ⊆ h' -> evaluator_in h self e c d ps psv nv ->
  evaluator_in h' self e c d ps psv nv.
Proof.
  intros Hsub [E1 E2 E3 E4 E5 E6]. split; by eapply lookup_weaken.
Qed.

(** Overwriting a parameter object or a dict does not touch an evaluator. *)
Lemma evaluator_in_insert_other h self e c d ps psv nv (l : loc) (o o' : obj) :
  h !! l = Some o ->
  match o with OptimizationParameters _ | dict _ => True | _ => False end ->
  evaluator_in h self e c d ps psv nv ->
  evaluator_in (<[l := o']> h) self e c d ps psv nv.
Proof.
  intros Hl Ho [E1 E2 E3 E4 E5 E6].
  assert (Hne : forall k o2, h !! k = Some o2 ->
                  match o2 with OptimizationParameters _ | dict _ => False | _ => True end ->
                  <[l := o']> h !! k = Some o2).
  { intros k o2 Hk Ho2. rewrite lookup_insert_ne; [done|].
    intros <-. rewrite Hl in Hk. injection Hk as <-. by destruct o. }
  split; by apply Hne.
Qed.

Lemma status_store_subseteq (h : heap) (status : option loc) :
  h ⊆ status_store h status.
Proof.
  destruct status as [s|]; simpl; [done|].
  apply insert_subseteq, not_elem_of_dom, is_fresh.
Qed.

Lemma status_or_fresh_run (h : heap) (status : option loc) :
  status_or_fresh status h = (Ok (status_reference h status), status_store h status).
Proof. by destruct status. Qed.

Section Multistart.
Context {engine : GPP}.

Lemma hyperparameter_domain_or_default_run h self e c d ps psv nv
    (hyperparameter_domain : option (list ClosedInterval)) :
  evaluator_in h self e c d ps psv nv ->
  hyperparameter_domain_or_default self hyperparameter_domain h
  = (Ok (engine_domain hyperparameter_domain (length c)), h).
Proof.
  intros Hev. unfold hyperparameter_domain_or_default, engine_domain.
  destruct hyperparameter_domain as [[|i domain]|]; [|done|];
    rewrite (bind_Ok _ _ _ _ _ (num_hyperparameters_run _ _ _ _ _ _ _ _ Hev));
    by rewrite default_hyperparameter_domain_replicate.
Qed.

Lemma multistart_engine_arguments_run h self e c d ps psv nv
    (parameters : loc) (p : HyperparameterOptimizationParameters)
    (hyperparameter_domain : option (list ClosedInterval))
    (randomness : option RandomnessSourceContainer) (max_num_threads : Z)
    (status : option loc) (entropy : Z) :
  evaluator_in h self e c d ps psv nv ->
  h !! parameters = Some (OptimizationParameters p) ->
  multistart_engine_arguments self parameters hyperparameter_domain randomness
    max_num_threads status entropy h
  = (Ok (prepared_arguments h e c d ps psv nv parameters hyperparameter_domain
           randomness max_num_threads status entropy),
     prepared_store h e parameters p status)
  /\ evaluator_in (prepared_store h e parameters p status) self e c d ps psv nv.
Proof.
  intros Hev Hp.
  pose proof (status_store_subseteq h status) as Hsub.
  pose proof (evaluator_in_weaken _ _ _ _ _ _ _ _ _ Hsub Hev) as Hev1.
  pose proof (lookup_weaken _ _ _ _ Hp Hsub) as Hp1.
  pose proof (evaluator_in_insert_other _ _ _ _ _ _ _ _ parameters _
                (OptimizationParameters (with_objective_type p (_log_likelihood_type e)))
                Hp1 I Hev1) as Hev2.
  split; [|exact Hev2].
  unfold multistart_engine_arguments.
  rewrite (bind_Ok _ _ _ _ _
             (hyperparameter_domain_or_default_run _ _ _ _ _ _ _ _
                hyperparameter_domain Hev)).
  rewrite (bind_Ok _ _ _ _ _ (status_or_fresh_run h status)).
  destruct Hev1 as [E1 _ _ _ _ _].
  rewrite (bind_Ok _ _ _ _ _ (load_LogLikelihood_Some _ _ _ E1)).
  assert (Hset : set_objective_type parameters (_log_likelihood_type e)
                   (status_store h status)
                 = (Ok tt, prepared_store h e parameters p status)).
  { unfold set_objective_type.
    by rewrite (bind_Ok _ _ _ _ _ (load_OptimizationParameters_Some _ _ _ Hp1)). }
  rewrite (bind_Ok _ _ _ _ _ Hset).
  destruct Hev2 as [F1 F2 F3 F4 F5 F6]. unfold cppify, cppify2.
  rewrite (bind_Ok _ _ _ _ _ (load_HistoricalData_Some _ _ _ F3)).
  rewrite (bind_Ok _ _ _ _ _ (load_ndarray2_Some _ _ _ F4)).
  rewrite (bind_Ok _ _ _ _ _ (load_ndarray_Some _ _ _ F5)).
  rewrite (bind_Ok _ _ _ _ _ (get_hyperparameters_Some _ _ _ F2)).
  by rewrite (bind_Ok _ _ _ _ _ (load_ndarray_Some _ _ _ F6)).
Qed.

Lemma multistart_hyperparameter_optimization_split
    (self parameters : loc) (hyperparameter_domain : option (list ClosedInterval))
    (randomness : option RandomnessSourceContainer) (max_num_threads : Z)
    (status : option loc) (entropy : Z) (h h1 : heap) (a : EngineArguments) :
  multistart_engine_arguments self parameters hyperparameter_domain randomness
    max_num_threads status entropy h = (Ok a, h1) ->
  multistart_hyperparameter_optimization self parameters hyperparameter_domain
    randomness max_num_threads status entropy h
  = C_GP_multistart_hyperparameter_optimization a h1.
Proof.
  intros Hprep. unfold multistart_hyperparameter_optimization.
  rewrite (bind_Ok _ _ _ _ _ Hprep). apply bind_ret_r.
Qed.

(** ** The engine's effect on the store *)

Lemma C_GP_multistart_hyperparameter_optimization_run (a : EngineArguments) (h : heap)
    (p : HyperparameterOptimizationParameters) (s : gmap string bool) :
  h !! arg_optimization_parameters a = Some (OptimizationParameters p) ->
  h !! arg_status a = Some (dict s) ->
  C_GP_multistart_hyperparameter_optimization a h
  = match multistart_search a p with
    | Ok (x, improved) =>
        (Ok x, <[arg_status a := dict (<[found_improvement := improved]> s)]> h)
    | Raise e => (Raise e, h)
    end.
Proof.
  intros Hp Hs. unfold C_GP_multistart_hyperparameter_optimization.
  rewrite (bind_Ok _ _ _ _ _ (load_OptimizationParameters_Some _ _ _ Hp)).
  rewrite (bind_Ok _ _ _ _ _ (load_dict_Some _ _ _ Hs)).
  by destruct (multistart_search a p) as [[x improved]|ex].
Qed.

(** Whatever it is handed, the engine writes nothing but a dict at the
    status reference, and only where a dict already is. *)
Lemma C_GP_multistart_hyperparameter_optimization_store (a : EngineArguments) (h : heap) :
  (C_GP_multistart_hyperparameter_optimization a h).2 = h
  \/ exists (s s' : gmap string bool),
       h !! arg_status a = Some (dict s)
       /\ (C_GP_multistart_hyperparameter_optimization a h).2
          = <[arg_status a := dict s']> h.
Proof.
  unfold C_GP_multistart_hyperparameter_optimization.
  destruct (load_OptimizationParameters (arg_optimization_parameters a) h)
    as [[p|ex] h1] eqn:Hp;
    pose proof (read_only_inv _ _ _ _
                  (read_only_load_OptimizationParameters _) Hp) as ->.
  2: { left. by rewrite (bind_Raise _ _ _ _ _ Hp). }
  rewrite (bind_Ok _ _ _ _ _ Hp).
  destruct (h !! arg_status a) as [o|] eqn:Hs.
  2: { left. unfold load_dict, load, mbind, M_bind. by rewrite Hs. }
  destruct o as [| | | | | |s];
    try (left; unfold load_dict, load, mbind, M_bind; by rewrite Hs).
  rewrite (bind_Ok _ _ _ _ _ (load_dict_Some _ _ _ Hs)).
  destruct (multistart_search a p) as [[x improved]|ex]; [|by left].
  right. by exists s, (<[found_improvement := improved]> s).
Qed.

End Multistart.

Section MultistartProperties.
Context {engine : GPP}.

(** ** The search *)

Lemma select_maximizer_elem (value : list float -> float) (cs : list (list float)) :
  forall best : list float, select_maximizer value best cs ∈ best :: cs.
Proof.
  induction cs as [|c cs IH]; intros best; simpl.
  - apply list_elem_of_here.
  - specialize (IH (if PrimFloat.ltb (value best) (value c) then c else best)).
    apply elem_of_cons in IH as [->|IH].
    + destruct (PrimFloat.ltb (value best) (value c)).
      * apply list_elem_of_further, list_elem_of_here.
      * apply list_elem_of_here.
    + by do 2 apply list_elem_of_further.
Qed.

(** When no candidate scores above the first initial guess, an accepted
    search answers with that guess and the flag down. *)
Lemma multistart_search_no_improvement (a : EngineArguments)
    (p : HyperparameterOptimizationParameters) (first : list float)
    (rest : list (list float)) :
  unsupported_combination p = false ->
  valid_domain (arg_domain a) (arg_hyperparameters a) = true ->
  initial_guesses a p = first :: rest ->
  no_candidate_improves a p first = true ->
  multistart_search a p = Ok (first, false).
Proof.
  intros Hsup Hdom Hinit Hno. unfold multistart_search.
  rewrite Hsup, Hdom. simpl.
  unfold no_candidate_improves in Hno. rewrite forallb_forall in Hno.
  unfold candidates in *. rewrite Hinit in *. simpl in *.
  set (value := engine_objective a (objective_type p)) in *.
  set (best := select_maximizer value (refine a p first) (map (refine a p) rest)).
  assert (Hbest : PrimFloat.ltb (value first) (value best) = false).
  { apply negb_true_iff, Hno.
    change (In best (refine a p first :: map (refine a p) rest)).
    apply list_elem_of_In, select_maximizer_elem. }
  by rewrite Hbest.
Qed.

(** The search does not look at the references among its arguments. *)
Lemma multistart_search_prepared h h' e c d ps psv nv parameters
    hyperparameter_domain randomness max_num_threads status status' entropy
    (p : HyperparameterOptimizationParameters) :
  multistart_search
    (prepared_arguments h e c d ps psv nv parameters hyperparameter_domain
       randomness max_num_threads status entropy) p
  = multistart_search
      (prepared_arguments h' e c d ps psv nv parameters hyperparameter_domain
         randomness max_num_threads status' entropy) p.
Proof. reflexivity. Qed.

(** C3.  A call of [multistart_hyperparameter_optimization] that reaches
    the engine with a supported optimizer, a valid domain and a status
    dict, and in which no refined candidate scores above the first initial
    guess of the Latin hypercube sample, returns exactly that first guess
    (whatever the best of the candidates is) and raises nothing; the
    status dict then holds [found_improvement = false]. *)
Theorem no_improvement_returns_first_guess
    (self parameters : loc) (hyperparameter_domain : option (list ClosedInterval))
    (randomness : option RandomnessSourceContainer) (max_num_threads : Z)
    (status : option loc) (entropy : Z) (h h1 : heap) (a : EngineArguments)
    (p : HyperparameterOptimizationParameters) (s : gmap string bool)
    (first : list float) (rest : list (list float)) :
  multistart_engine_arguments self parameters hyperparameter_domain randomness
    max_num_threads status entropy h = (Ok a, h1) ->
  h1 !! arg_optimization_parameters a = Some (OptimizationParameters p) ->
  h1 !! arg_status a = Some (dict s) ->
  unsupported_combination p = false ->
  valid_domain (arg_domain a) (arg_hyperparameters a) = true ->
  initial_guesses a p = first :: rest ->
  no_candidate_improves a p first = true ->
  exists h2 : heap,
    multistart_hyperparameter_optimization self parameters hyperparameter_domain
      randomness max_num_threads status entropy h = (Ok first, h2)
    /\ h2 !! arg_status a = Some (dict (<[found_improvement := false]> s))
    /\ (<[found_improvement := false]> s) !! found_improvement = Some false.
Proof.
  intros Hprep Hp Hs Hsup Hdom Hinit Hno.
  exists (<[arg_status a := dict (<[found_improvement := false]> s)]> h1).
  rewrite (multistart_hyperparameter_optimization_split _ _ _ _ _ _ _ _ _ _ Hprep).
  rewrite (C_GP_multistart_hyperparameter_optimization_run _ _ _ _ Hp Hs).
  rewrite (multistart_search_no_improvement _ _ _ _ Hsup Hdom Hinit Hno).
  split; [done|]. split; apply lookup_insert_eq.
Qed.

(** ** Defaults *)

(** C4.  Called without a domain ([None], or an empty one) on a complete
    evaluator, [multistart_hyperparameter_optimization] reads the
    evaluator's [num_hyperparameters] and hands the engine one interval
    [-2, 1] per hyperparameter: the domain is in place in the arguments
    with which the engine is then invoked. *)
Theorem missing_domain_defaults_to_minus_two_one
    (h : heap) (self : loc) (e : LogLikelihoodObject) (c : list float)
    (d : HistoricalDataObject) (ps : list (list float)) (psv nv : list float)
    (parameters : loc) (p : HyperparameterOptimizationParameters)
    (hyperparameter_domain : option (list ClosedInterval))
    (randomness : option RandomnessSourceContainer) (max_num_threads : Z)
    (status : option loc) (entropy : Z) :
  evaluator_in h self e c d ps psv nv ->
  h !! parameters = Some (OptimizationParameters p) ->
  hyperparameter_domain = None \/ hyperparameter_domain = Some [] ->
  exists (a : EngineArguments) (h1 : heap) (n : nat),
    num_hyperparameters self h = (Ok n, h)
    /\ multistart_engine_arguments self parameters hyperparameter_domain randomness
         max_num_threads status entropy h = (Ok a, h1)
    /\ arg_domain a = replicate n {| min := (-2)%float; max := 1%float |}
    /\ length (arg_domain a) = n
    /\ multistart_hyperparameter_optimization self parameters hyperparameter_domain
         randomness max_num_threads status entropy h
       = C_GP_multistart_hyperparameter_optimization a h1.
Proof.
  intros Hev Hp Hmissing.
  destruct (multistart_engine_arguments_run _ _ _ _ _ _ _ _ parameters p
              hyperparameter_domain randomness max_num_threads status entropy Hev Hp)
    as [Hprep _].
  eexists _, _, (length c). split; [by eapply num_hyperparameters_run|].
  split; [exact Hprep|].
  split; [by destruct Hmissing as [-> | ->]|].
  split; [destruct Hmissing as [-> | ->]; apply length_replicate|].
  by apply multistart_hyperparameter_optimization_split.
Qed.

(** C10.  On a complete evaluator and a parameter object, every call of
    [multistart_hyperparameter_optimization] overwrites the parameter
    object's [objective_type] with the evaluator's [_log_likelihood_type],
    whatever it held: the engine is invoked on the parameter object so
    changed, and the change is still there when the call is over, whether
    it returned or raised. *)
Theorem objective_type_is_overwritten
    (h : heap) (self : loc) (e : LogLikelihoodObject) (c : list float)
    (d : HistoricalDataObject) (ps : list (list float)) (psv nv : list float)
    (parameters : loc) (p : HyperparameterOptimizationParameters)
    (hyperparameter_domain : option (list ClosedInterval))
    (randomness : option RandomnessSourceContainer) (max_num_threads : Z)
    (status : option loc) (entropy : Z) :
  evaluator_in h self e c d ps psv nv ->
  h !! parameters = Some (OptimizationParameters p) ->
  exists (a : EngineArguments) (h1 : heap),
    multistart_engine_arguments self parameters hyperparameter_domain randomness
      max_num_threads status entropy h = (Ok a, h1)
    /\ arg_optimization_parameters a = parameters
    /\ h1 !! parameters
       = Some (OptimizationParameters (with_objective_type p (_log_likelihood_type e)))
    /\ multistart_hyperparameter_optimization self parameters hyperparameter_domain
         randomness max_num_threads status entropy h
       = C_GP_multistart_hyperparameter_optimization a h1
    /\ (multistart_hyperparameter_optimization self parameters hyperparameter_domain
          randomness max_num_threads status entropy h).2 !! parameters
       = Some (OptimizationParameters (with_objective_type p (_log_likelihood_type e)))
    /\ objective_type (with_objective_type p (_log_likelihood_type e))
       = _log_likelihood_type e.
Proof.
  intros Hev Hp.
  destruct (multistart_engine_arguments_run _ _ _ _ _ _ _ _ parameters p
              hyperparameter_domain randomness max_num_threads status entropy Hev Hp)
    as [Hprep _].
  assert (Hp1 : prepared_store h e parameters p status !! parameters
                = Some (OptimizationParameters
                          (with_objective_type p (_log_likelihood_type e))))
    by apply lookup_insert_eq.
  eexists _, _. split; [exact Hprep|]. split; [done|]. split; [exact Hp1|].
  rewrite (multistart_hyperparameter_optimization_split _ _ _ _ _ _ _ _ _ _ Hprep).
  split; [done|]. split; [|done].
  destruct (C_GP_multistart_hyperparameter_optimization_store
              (prepared_arguments h e c d ps psv nv parameters hyperparameter_domain
                 randomness max_num_threads status entropy)
              (prepared_store h e parameters p status))
    as [-> | (s & s' & Hs & ->)]; [exact Hp1|].
  rewrite lookup_insert_ne; [exact Hp1|].
  intros Heq. rewrite Heq, Hp1 in Hs. discriminate.
Qed.

End MultistartProperties.

Section Status.
Context {engine : GPP}.

(** ** The status dict *)

(** A whole call, on a complete evaluator, a parameter object and a status
    reference that holds a dict when the engine is reached. *)
Lemma multistart_hyperparameter_optimization_run
    h self e c d ps psv nv (parameters : loc) (p : HyperparameterOptimizationParameters)
    (hyperparameter_domain : option (list ClosedInterval))
    (randomness : option RandomnessSourceContainer) (max_num_threads : Z)
    (status : option loc) (entropy : Z) (s : gmap string bool) :
  evaluator_in h self e c d ps psv nv ->
  h !! parameters = Some (OptimizationParameters p) ->
  prepared_store h e parameters p status !! status_reference h status = Some (dict s) ->
  multistart_hyperparameter_optimization self parameters hyperparameter_domain
    randomness max_num_threads status entropy h
  = match multistart_search
            (prepared_arguments h e c d ps psv nv parameters hyperparameter_domain
               randomness max_num_threads status entropy)
            (with_objective_type p (_log_likelihood_type e)) with
    | Ok (x, improved) =>
        (Ok x, <[status_reference h status := dict (<[found_improvement := improved]> s)]>
                 (prepared_store h e parameters p status))
    | Raise ex => (Raise ex, prepared_store h e parameters p status)
    end.
Proof.
  intros Hev Hp Hs.
  destruct (multistart_engine_arguments_run _ _ _ _ _ _ _ _ parameters p
              hyperparameter_domain randomness max_num_threads status entropy Hev Hp)
    as [Hprep _].
  rewrite (multistart_hyperparameter_optimization_split _ _ _ _ _ _ _ _ _ _ Hprep).
  apply C_GP_multistart_hyperparameter_optimization_run; [|exact Hs].
  apply lookup_insert_eq.
Qed.

Lemma prepared_store_default_status h e (parameters : loc)
    (p : HyperparameterOptimizationParameters) :
  h !! parameters = Some (OptimizationParameters p) ->
  prepared_store h e parameters p None !! status_reference h None = Some (dict ∅).
Proof.
  intros Hp. unfold prepared_store, status_reference, status_store.
  assert (Hfresh : fresh (dom h) ∉ dom h) by apply is_fresh.
  rewrite lookup_insert_ne.
  - apply lookup_insert_eq.
  - intros ->. apply Hfresh. by apply elem_of_dom_2 in Hp.
Qed.

Lemma prepared_store_caller_status h e (parameters s : loc)
    (p : HyperparameterOptimizationParameters) (entries : gmap string bool) :
  h !! parameters = Some (OptimizationParameters p) ->
  h !! s = Some (dict entries) ->
  prepared_store h e parameters p (Some s) !! status_reference h (Some s)
  = Some (dict entries).
Proof.
  intros Hp Hs. unfold prepared_store, status_reference, status_store.
  rewrite lookup_insert_ne; [done|]. intros ->. congruence.
Qed.

(** The objects a caller held before the call, the parameter object
    apart, are as they were in the store the engine is called in. *)
Lemma prepared_store_frame h e (parameters : loc)
    (p : HyperparameterOptimizationParameters) (status : option loc) (l : loc) :
  l ∈ dom h -> l <> parameters ->
  prepared_store h e parameters p status !! l = h !! l.
Proof.
  intros Hl Hne. unfold prepared_store. rewrite lookup_insert_ne by done.
  destruct status as [s|]; simpl; [done|].
  rewrite lookup_insert_ne; [done|]. intros <-. by apply (is_fresh (dom h)).
Qed.

(** C9.  On a complete evaluator and a parameter object:
    with [status = None] the dict handed to the engine is a new, empty
    one that nothing in the caller's store refers to, the call returns the
    hyperparameter vector alone, and afterwards every object the caller
    held, the parameter object apart, is as it was, so the flag cannot be
    read;
    with a caller's dict the call returns the same result, changes no
    other object the caller held than the parameter object and that dict,
    and, when it returns, the dict holds the flag under
    [found_improvement] on top of its old entries. *)
Theorem default_status_is_discarded
    (h : heap) (self : loc) (e : LogLikelihoodObject) (c : list float)
    (d : HistoricalDataObject) (ps : list (list float)) (psv nv : list float)
    (parameters : loc) (p : HyperparameterOptimizationParameters)
    (hyperparameter_domain : option (list ClosedInterval))
    (randomness : option RandomnessSourceContainer) (max_num_threads : Z)
    (entropy : Z) :
  evaluator_in h self e c d ps psv nv ->
  h !! parameters = Some (OptimizationParameters p) ->
  (exists (a : EngineArguments) (h1 : heap),
      multistart_engine_arguments self parameters hyperparameter_domain randomness
        max_num_threads None entropy h = (Ok a, h1)
      /\ (arg_status a ∉ dom h)
      /\ h1 !! arg_status a = Some (dict ∅)
      /\ multistart_hyperparameter_optimization self parameters hyperparameter_domain
           randomness max_num_threads None entropy h
         = C_GP_multistart_hyperparameter_optimization a h1)
  /\ (forall l : loc, l ∈ dom h -> l <> parameters ->
        (multistart_hyperparameter_optimization self parameters hyperparameter_domain
           randomness max_num_threads None entropy h).2 !! l = h !! l)
  /\ (forall (s : loc) (entries : gmap string bool),
        h !! s = Some (dict entries) ->
        (multistart_hyperparameter_optimization self parameters hyperparameter_domain
           randomness max_num_threads (Some s) entropy h).1
        = (multistart_hyperparameter_optimization self parameters hyperparameter_domain
             randomness max_num_threads None entropy h).1
        /\ (forall l : loc, l ∈ dom h -> l <> parameters -> l <> s ->
              (multistart_hyperparameter_optimization self parameters
                 hyperparameter_domain randomness max_num_threads (Some s) entropy h).2
                !! l = h !! l)
        /\ (forall x : list float,
              (multistart_hyperparameter_optimization self parameters
                 hyperparameter_domain randomness max_num_threads (Some s) entropy h).1
              = Ok x ->
              exists improved : bool,
                (multistart_hyperparameter_optimization self parameters
                   hyperparameter_domain randomness max_num_threads (Some s) entropy h).2
                  !! s = Some (dict (<[found_improvement := improved]> entries)))).
Proof.
  intros Hev Hp.
  pose proof (prepared_store_default_status h e parameters p Hp) as Hnone.
  pose proof (multistart_hyperparameter_optimization_run _ _ _ _ _ _ _ _ parameters p
                hyperparameter_domain randomness max_num_threads None entropy ∅
                Hev Hp Hnone) as Hrun.
  split; [|split].
  - destruct (multistart_engine_arguments_run _ _ _ _ _ _ _ _ parameters p
                hyperparameter_domain randomness max_num_threads None entropy Hev Hp)
      as [Hprep _].
    eexists _, _. split; [exact Hprep|]. split; [apply is_fresh|].
    split; [exact Hnone|].
    by apply multistart_hyperparameter_optimization_split.
  - intros l Hl Hne. rewrite Hrun.
    destruct (multistart_search _ _) as [[x improved]|ex]; simpl.
    + rewrite lookup_insert_ne; [by apply prepared_store_frame|].
      intros <-. by apply (is_fresh (dom h)).
    + by apply prepared_store_frame.
  - intros s entries Hs.
    pose proof (prepared_store_caller_status h e parameters s p entries Hp Hs) as Hsome.
    pose proof (multistart_hyperparameter_optimization_run _ _ _ _ _ _ _ _ parameters p
                  hyperparameter_domain randomness max_num_threads (Some s) entropy
                  entries Hev Hp Hsome) as Hrun'.
    rewrite Hrun, Hrun'.
    rewrite (multistart_search_prepared h h e c d ps psv nv parameters
               hyperparameter_domain randomness max_num_threads (Some s) None entropy).
    destruct (multistart_search _ _) as [[x improved]|ex]; simpl.
    + split; [done|]. split.
      * intros l Hl Hne Hne'. rewrite lookup_insert_ne by done.
        by apply prepared_store_frame.
      * intros _ _. exists improved. apply lookup_insert_eq.
    + split; [done|]. split.
      * intros l Hl Hne Hne'. by apply prepared_store_frame.
      * intros x [=].
Qed.

End Status.

(** ** The properties at work on the example *)

Lemma no_improvement_returns_first_guess_witness :
  exists h2 : heap,
    example_call (Some 13%positive) 1 = (Ok [1%float; 1%float], h2)
    /\ h2 !! 13%positive = Some (dict (<[found_improvement := false]> ∅))
    /\ (<[found_improvement := false]> (∅ : gmap string bool)) !! found_improvement
       = Some false.
Proof.
  apply (no_improvement_returns_first_guess (engine := example_engine)
           11%positive 12%positive None None 1 (Some 13%positive) 1
           example_call_store
           (prepared_store example_call_store example_evaluator 12%positive
              example_parameters (Some 13%positive))
           (prepared_arguments (engine := example_engine) example_call_store
              example_evaluator [1%float; 0.5%float] example_data
              [[0%float]; [1%float]; [2%float]] [0%float; 1%float; 0%float]
              [0.25%float; 0.25%float; 0.25%float] 12%positive None None 1
              (Some 13%positive) 1)
           (with_objective_type example_parameters log_marginal_likelihood)
           ∅ [1%float; 1%float] [[(-2)%float; (-2)%float]]);
    vm_compute; reflexivity.
Defined.

Lemma missing_domain_defaults_to_minus_two_one_witness :
  exists (a : EngineArguments) (h1 : heap) (n : nat),
    num_hyperparameters 11%positive example_call_store = (Ok n, example_call_store)
    /\ multistart_engine_arguments (engine := example_engine) 11%positive 12%positive
         None None 1 (Some 13%positive) 0 example_call_store = (Ok a, h1)
    /\ arg_domain a = replicate n {| min := (-2)%float; max := 1%float |}
    /\ length (arg_domain a) = n
    /\ example_call (Some 13%positive) 0
       = C_GP_multistart_hyperparameter_optimization (engine := example_engine) a h1.
Proof.
  apply (missing_domain_defaults_to_minus_two_one (engine := example_engine)
           example_call_store 11%positive example_evaluator [1%float; 0.5%float]
           example_data [[0%float]; [1%float]; [2%float]] [0%float; 1%float; 0%float]
           [0.25%float; 0.25%float; 0.25%float] 12%positive example_parameters
           None None 1 (Some 13%positive) 0).
  - split; vm_compute; reflexivity.
  - vm_compute; reflexivity.
  - left; reflexivity.
Defined.

(** The default domain, run: two hyperparameters, two intervals [-2, 1]. *)
Example example_default_domain :
  (a ← multistart_engine_arguments (engine := example_engine) 11%positive 12%positive
         None None 1 (Some 13%positive) 0;
   mret (arg_domain a)) example_call_store
  = (Ok [{| min := (-2)%float; max := 1%float |};
         {| min := (-2)%float; max := 1%float |}],
     <[12%positive := OptimizationParameters
                        (with_objective_type example_parameters log_marginal_likelihood)]>
       example_call_store).
Proof. vm_compute. reflexivity. Qed.

Lemma objective_type_is_overwritten_witness :
  exists (a : EngineArguments) (h1 : heap),
    multistart_engine_arguments (engine := example_engine) 11%positive 12%positive
      None None 1 (Some 13%positive) 0 example_call_store = (Ok a, h1)
    /\ arg_optimization_parameters a = 12%positive
    /\ h1 !! 12%positive
       = Some (OptimizationParameters
                 (with_objective_type example_parameters log_marginal_likelihood))
    /\ example_call (Some 13%positive) 0
       = C_GP_multistart_hyperparameter_optimization (engine := example_engine) a h1
    /\ (example_call (Some 13%positive) 0).2 !! 12%positive
       = Some (OptimizationParameters
                 (with_objective_type example_parameters log_marginal_likelihood))
    /\ objective_type (with_objective_type example_parameters log_marginal_likelihood)
       = log_marginal_likelihood.
Proof.
  apply (objective_type_is_overwritten (engine := example_engine)
           example_call_store 11%positive example_evaluator [1%float; 0.5%float]
           example_data [[0%float]; [1%float]; [2%float]] [0%float; 1%float; 0%float]
           [0.25%float; 0.25%float; 0.25%float] 12%positive example_parameters
           None None 1 (Some 13%positive) 0).
  - split; vm_compute; reflexivity.
  - vm_compute; reflexivity.
Defined.

Lemma default_status_is_discarded_witness :
  (exists (a : EngineArguments) (h1 : heap),
      multistart_engine_arguments (engine := example_engine) 11%positive 12%positive
        None None 1 None 0 example_call_store = (Ok a, h1)
      /\ (arg_status a ∉ dom example_call_store)
      /\ h1 !! arg_status a = Some (dict ∅)
      /\ example_call None 0
         = C_GP_multistart_hyperparameter_optimization (engine := example_engine) a h1)
  /\ (forall l : loc, l ∈ dom example_call_store -> l <> 12%positive ->
        (example_call None 0).2 !! l = example_call_store !! l)
  /\ (forall (s : loc) (entries : gmap string bool),
        example_call_store !! s = Some (dict entries) ->
        (example_call (Some s) 0).1 = (example_call None 0).1
        /\ (forall l : loc, l ∈ dom example_call_store -> l <> 12%positive -> l <> s ->
              (example_call (Some s) 0).2 !! l = example_call_store !! l)
        /\ (forall x : list float,
              (example_call (Some s) 0).1 = Ok x ->
              exists improved : bool,
                (example_call (Some s) 0).2 !! s
                = Some (dict (<[found_improvement := improved]> entries)))).
Proof.
  apply (default_status_is_discarded (engine := example_engine)
           example_call_store 11%positive example_evaluator [1%float; 0.5%float]
           example_data [[0%float]; [1%float]; [2%float]] [0%float; 1%float; 0%float]
           [0.25%float; 0.25%float; 0.25%float] 12%positive example_parameters
           None None 1 0).
  - split; vm_compute; reflexivity.
  - vm_compute; reflexivity.
Defined.

(** The two ways of calling, run: the same vector comes back; the caller's
    dict at 13 holds the flag afterwards, and after the call without a
    status the caller's dict is still empty. *)
Example example_status_supplied :
  (example_call (Some 13%positive) 0).1 = Ok [1%float; 1%float]
  /\ (example_call (Some 13%positive) 0).2 !! 13%positive
     = Some (dict (<[found_improvement := true]> ∅)).
Proof. split; vm_compute; reflexivity. Qed.

Example example_status_default :
  (example_call None 0).1 = Ok [1%float; 1%float]
  /\ (example_call None 0).2 !! 13%positive = Some (dict ∅).
Proof. split; vm_compute; reflexivity. Qed.

(** * Further properties of the module *)

(** ** Hessians, whatever the class *)

(** X1.  No evaluator supports Hessians: on an instance of any of the three
    classes, [compute_hessian_log_likelihood] and
    [compute_hessian_objective_function] raise NotImplementedError and
    write nothing.  The method is chosen by the class of the instance, not
    by its [_log_likelihood_type]: the LOO-CV message is raised exactly on
    instances of LeaveOneOutLogLikelihood, the general one otherwise. *)
Theorem compute_hessian_raises_for_every_class
    (h : heap) (self : loc) (e : LogLikelihoodObject) (hyperparameters : list float) :
  h !! self = Some (LogLikelihoodInstance e) ->
  exists msg : string,
    compute_hessian_log_likelihood self hyperparameters h
      = (Raise (NotImplementedError msg), h)
    /\ compute_hessian_objective_function self hyperparameters h
      = (Raise (NotImplementedError msg), h)
    /\ (class_of e = LeaveOneOutLogLikelihood -> msg = hessian_not_supported_loo)
    /\ (class_of e <> LeaveOneOutLogLikelihood -> msg = hessian_not_exposed)
    /\ hessian_not_supported_loo <> hessian_not_exposed.
Proof.
  intros Hself.
  unfold compute_hessian_objective_function, compute_hessian_log_likelihood.
  rewrite (bind_Ok _ _ _ _ _ (load_LogLikelihood_Some _ _ _ Hself)).
  destruct (class_of e) eqn:Hcls.
  - exists hessian_not_exposed. by repeat split.
  - exists hessian_not_exposed. by repeat split.
  - exists hessian_not_supported_loo. by repeat split.
Qed.

Lemma compute_hessian_raises_for_every_class_witness :
  exists msg : string,
    compute_hessian_log_likelihood 11%positive [2%float; 3%float] example_base_loo_store
      = (Raise (NotImplementedError msg), example_base_loo_store)
    /\ compute_hessian_objective_function 11%positive [2%float; 3%float]
         example_base_loo_store
      = (Raise (NotImplementedError msg), example_base_loo_store)
    /\ (class_of example_base_loo_evaluator = LeaveOneOutLogLikelihood ->
        msg = hessian_not_supported_loo)
    /\ (class_of example_base_loo_evaluator <> LeaveOneOutLogLikelihood ->
        msg = hessian_not_exposed)
    /\ hessian_not_supported_loo <> hessian_not_exposed.
Proof.
  apply (compute_hessian_raises_for_every_class example_base_loo_store 11%positive
           example_base_loo_evaluator [2%float; 3%float]).
  vm_compute. reflexivity.
Defined.

(** ** Construction and the caller's objects *)

Lemma LogLikelihood___init___arguments (cls : LogLikelihoodClass) (cov hist : loc)
    (t : LogLikelihoodTypes) (c : list float) (d : HistoricalDataObject)
    (ps : list (list float)) (psv nv : list float) (h0 : heap) :
  constructor_arguments_in h0 cov hist c d ps psv nv ->
  exists (self : loc) (h1 : heap) (e : LogLikelihoodObject) (d' : HistoricalDataObject),
    LogLikelihood___init__ cls cov hist t h0 = (Ok self, h1)
    /\ h0 ⊆ h1
    /\ class_of e = cls /\ _log_likelihood_type e = t
    /\ dim_of d' = dim_of d /\ num_sampled d' = num_sampled d
    /\ evaluator_in h1 self e c d' ps psv nv
    /\ Forall (fun l => h0 !! l = None)
         [self; _covariance e; _historical_data e;
          points_sampled d'; points_sampled_value d'; noise_variance d'].
Proof.
  intros [A1 A2 A3 A4 A5]. by apply LogLikelihood___init___spec.
Qed.

Lemma constructor_arguments_in_weaken h h' cov hist c d ps psv nv :
  h ⊆ h' -> constructor_arguments_in h cov hist c d ps psv nv ->
  constructor_arguments_in h' cov hist c d ps psv nv.
Proof. intros Hsub [A1 A2 A3 A4 A5]. split; by eapply lookup_weaken. Qed.

(** X2.  The constructor never writes to what it is given: it returns a
    new evaluator, and every object of the store it was called in, the
    caller's kernel, data container and arrays among them, is afterwards
    what it was. *)
Theorem constructor_leaves_existing_objects
    (cls : LogLikelihoodClass) (cov hist : loc) (t : LogLikelihoodTypes)
    (c : list float) (d : HistoricalDataObject)
    (ps : list (list float)) (psv nv : list float) (h0 : heap) :
  constructor_arguments_in h0 cov hist c d ps psv nv ->
  exists (self : loc) (h1 : heap),
    LogLikelihood___init__ cls cov hist t h0 = (Ok self, h1)
    /\ (self ∉ dom h0)
    /\ (forall l : loc, l ∈ dom h0 -> h1 !! l = h0 !! l)
    /\ constructor_arguments_in h1 cov hist c d ps psv nv.
Proof.
  intros Hargs.
  destruct (LogLikelihood___init___arguments cls cov hist t c d ps psv nv h0 Hargs)
    as (self & h1 & e & d' & Hrun & Hsub & _ & _ & _ & _ & _ & Hnew).
  exists self, h1. split; [exact Hrun|]. split; [|split].
  - apply not_elem_of_dom. by apply Forall_cons_1 in Hnew as [Hself _].
  - intros l [o Hl]%elem_of_dom. rewrite Hl. by eapply lookup_weaken.
  - by eapply constructor_arguments_in_weaken.
Qed.

Lemma constructor_leaves_existing_objects_witness :
  exists (self : loc) (h1 : heap),
    LogLikelihood___init__ LogLikelihood 1%positive 5%positive
      leave_one_out_log_likelihood example_store = (Ok self, h1)
    /\ (self ∉ dom example_store)
    /\ (forall l : loc, l ∈ dom example_store -> h1 !! l = example_store !! l)
    /\ constructor_arguments_in h1 1%positive 5%positive
         [1%float; 0.5%float] example_original_data
         [[0%float]; [1%float]; [2%float]] [0%float; 1%float; 0%float]
         [0.25%float; 0.25%float; 0.25%float].
Proof.
  apply (constructor_leaves_existing_objects LogLikelihood 1%positive 5%positive
           leave_one_out_log_likelihood [1%float; 0.5%float] example_original_data
           [[0%float]; [1%float]; [2%float]] [0%float; 1%float; 0%float]
           [0.25%float; 0.25%float; 0.25%float] example_store).
  split; vm_compute; reflexivity.
Defined.

Section FurtherEvaluation.
Context {engine : GPP}.

(** ** The subclasses *)


(** ** Evaluation and the caller's objects *)

(** X4.  An evaluation never reaches back to the caller: after
    construction, [compute_log_likelihood] and
    [compute_grad_log_likelihood] write to the evaluator's own kernel
    only, so every object that existed when the constructor was called,
    the caller's kernel among them, is untouched by them. *)
Theorem evaluation_leaves_caller_objects
    (cls : LogLikelihoodClass) (cov hist : loc) (t : LogLikelihoodTypes)
    (c : list float) (d : HistoricalDataObject)
    (ps : list (list float)) (psv nv : list float) (h0 : heap) :
  constructor_arguments_in h0 cov hist c d ps psv nv ->
  exists (self : loc) (h1 : heap),
    LogLikelihood___init__ cls cov hist t h0 = (Ok self, h1)
    /\ forall (x : list float) (l : loc),
         l ∈ dom h0 ->
         (compute_log_likelihood self x h1).2 !! l = h0 !! l
         /\ (compute_grad_log_likelihood self x h1).2 !! l = h0 !! l
         /\ get_hyperparameters cov (compute_log_likelihood self x h1).2
            = (Ok c, (compute_log_likelihood self x h1).2).
Proof.
  intros Hargs.
  destruct (LogLikelihood___init___arguments cls cov hist t c d ps psv nv h0 Hargs)
    as (self & h1 & e & d' & Hrun & Hsub & _ & _ & _ & _ & Hev & Hnew).
  exists self, h1. split; [exact Hrun|]. intros x l Hl.
  rewrite (compute_log_likelihood_run _ _ _ _ _ _ _ _ x Hev).
  rewrite (compute_grad_log_likelihood_run _ _ _ _ _ _ _ _ x Hev). simpl.
  assert (Hcov_new : h0 !! _covariance e = None).
  { rewrite !Forall_cons in Hnew. by destruct Hnew as (_ & Hc & _). }
  assert (Hold : forall k : loc, k ∈ dom h0 ->
            <[_covariance e := Covariance x]> h1 !! k = h0 !! k).
  { intros k [o Hk]%elem_of_dom. rewrite lookup_insert_ne.
    - rewrite Hk. by eapply lookup_weaken.
    - intros <-. congruence. }
  split; [by apply Hold|]. split; [by apply Hold|].
  apply get_hyperparameters_Some. destruct Hargs as [A1 _ _ _ _].
  rewrite Hold; [done|]. by apply elem_of_dom_2 in A1.
Qed.

(** ** Successive evaluations *)

(** X5.  The kernel's previous state leaves no trace in an evaluation: on a
    complete evaluator, [compute_log_likelihood(y)] after
    [compute_log_likelihood(x)] or [compute_grad_log_likelihood(x)]
    returns the value and ends in the store of [compute_log_likelihood(y)]
    alone, and likewise for the gradient; in particular an evaluation
    repeated at the same point returns the same value and changes nothing
    the second time. *)
Theorem last_evaluation_wins
    (h : heap) (self : loc) (e : LogLikelihoodObject) (c : list float)
    (d : HistoricalDataObject) (ps : list (list float)) (psv nv : list float)
    (x y : list float) :
  evaluator_in h self e c d ps psv nv ->
  compute_log_likelihood self y (compute_log_likelihood self x h).2
    = compute_log_likelihood self y h
  /\ compute_log_likelihood self y (compute_grad_log_likelihood self x h).2
    = compute_log_likelihood self y h
  /\ compute_grad_log_likelihood self y (compute_log_likelihood self x h).2
    = compute_grad_log_likelihood self y h
  /\ compute_grad_log_likelihood self y (compute_grad_log_likelihood self x h).2
    = compute_grad_log_likelihood self y h
  /\ compute_log_likelihood self x (compute_log_likelihood self x h).2
    = ((compute_log_likelihood self x h).1, (compute_log_likelihood self x h).2).
Proof.
  intros Hev.
  pose proof (evaluator_in_set_hyperparameters _ _ _ _ _ _ _ _ x Hev) as Hev'.
  rewrite !(compute_log_likelihood_run _ _ _ _ _ _ _ _ _ Hev).
  rewrite !(compute_grad_log_likelihood_run _ _ _ _ _ _ _ _ _ Hev). simpl.
  rewrite !(compute_log_likelihood_run _ _ _ _ _ _ _ _ _ Hev').
  rewrite !(compute_grad_log_likelihood_run _ _ _ _ _ _ _ _ _ Hev').
  by rewrite !insert_insert_eq.
Qed.

(** ** What only reads *)

(** X6.  [evaluate_log_likelihood_at_hyperparameter_list] and the
    properties [dim], [num_hyperparameters] and [problem_size] never write
    to the store, on any store and whether they return or raise: unlike
    [compute_log_likelihood], the batch evaluation leaves the kernel's
    hyperparameters as they are. *)
Theorem batch_evaluation_writes_nothing
    (self : loc) (hyperparameters_to_evaluate : list (list float))
    (max_num_threads : Z) (h : heap) :
  (evaluate_log_likelihood_at_hyperparameter_list self hyperparameters_to_evaluate
     max_num_threads h).2 = h
  /\ (dim self h).2 = h
  /\ (num_hyperparameters self h).2 = h
  /\ (problem_size self h).2 = h.
Proof.
  assert (Hbatch : read_only (evaluate_log_likelihood_at_hyperparameter_list self
                                hyperparameters_to_evaluate max_num_threads)).
  { unfold evaluate_log_likelihood_at_hyperparameter_list, cppify, cppify2.
    read_only_tac. }
  split; [apply Hbatch|]. split; [apply read_only_dim|].
  split; apply read_only_num_hyperparameters.
Qed.

End FurtherEvaluation.

Section FurtherBatch.
Context {engine : GPP}.

(** The store after a loop of evaluations over a list that ends in [x]. *)
Lemma mapM_compute_log_likelihood_store (hss : list (list float)) :
  forall h self e c d ps psv nv (x : list float),
    evaluator_in h self e c d ps psv nv ->
    (mapM (compute_log_likelihood self) (hss ++ [x]) h).2
    = <[_covariance e := Covariance x]> h.
Proof.
  induction hss as [|y hss IH]; intros h self e c d ps psv nv x Hev.
  - change (mapM (compute_log_likelihood self) ([] ++ [x]))
      with (v ← compute_log_likelihood self x;
            k ← mapM (compute_log_likelihood self) []; mret (v :: k)).
    by rewrite (bind_Ok _ _ _ _ _ (compute_log_likelihood_run _ _ _ _ _ _ _ _ x Hev)).
  - pose proof (evaluator_in_set_hyperparameters _ _ _ _ _ _ _ _ y Hev) as Hev'.
    specialize (IH _ _ _ _ _ _ _ _ x Hev').
    rewrite insert_insert_eq in IH. rewrite <- IH.
    change (mapM (compute_log_likelihood self) ((y :: hss) ++ [x]))
      with (v ← compute_log_likelihood self y;
            k ← mapM (compute_log_likelihood self) (hss ++ [x]); mret (v :: k)).
    rewrite (bind_Ok _ _ _ _ _ (compute_log_likelihood_run _ _ _ _ _ _ _ _ y Hev)).
    unfold mbind, M_bind.
    by destruct (mapM (compute_log_likelihood self) (hss ++ [x])
                   (<[_covariance e := Covariance y]> h)) as [[k|ex] h'].
Qed.

(** X7.  The batch evaluation and the loop it stands for return the same
    values but do not leave the same store: after a loop of
    [compute_log_likelihood] calls over a list that ends in [x] the
    evaluator's kernel holds [x], after
    [evaluate_log_likelihood_at_hyperparameter_list] on that list it
    still holds the vector it held before. *)
Theorem batch_and_loop_differ_in_kernel_state
    (h : heap) (self : loc) (e : LogLikelihoodObject) (c : list float)
    (d : HistoricalDataObject) (ps : list (list float)) (psv nv : list float)
    (hss : list (list float)) (x : list float) (max_num_threads : Z) :
  evaluator_in h self e c d ps psv nv ->
  (evaluate_log_likelihood_at_hyperparameter_list self (hss ++ [x]) max_num_threads h).1
    = (mapM (compute_log_likelihood self) (hss ++ [x]) h).1
  /\ get_hyperparameters (_covariance e)
       (mapM (compute_log_likelihood self) (hss ++ [x]) h).2
     = (Ok x, (mapM (compute_log_likelihood self) (hss ++ [x]) h).2)
  /\ get_hyperparameters (_covariance e)
       (evaluate_log_likelihood_at_hyperparameter_list self (hss ++ [x])
          max_num_threads h).2
     = (Ok c, h).
Proof.
  intros Hev. split; [|split].
  - rewrite (evaluate_log_likelihood_at_hyperparameter_list_run _ _ _ _ _ _ _ _ _ _ Hev).
    by destruct (mapM_compute_log_likelihood_run (hss ++ [x]) _ _ _ _ _ _ _ _ Hev)
      as (h' & c' & -> & _).
  - rewrite (mapM_compute_log_likelihood_store hss _ _ _ _ _ _ _ _ x Hev).
    apply get_hyperparameters_Some with (c := x). apply lookup_insert_eq.
  - rewrite (evaluate_log_likelihood_at_hyperparameter_list_run _ _ _ _ _ _ _ _ _ _ Hev).
    apply get_hyperparameters_Some. by destruct Hev.
Qed.

End FurtherBatch.

Section FurtherMultistart.
Context {engine : GPP}.

(** ** What the multistart wrapper passes on *)

(** X8.  The wrapper checks nothing about a domain or a randomness
    container it is given: a nonempty [hyperparameter_domain] reaches the
    engine as it is, whatever its length and bounds, and so do a supplied
    [randomness] and [max_num_threads]. *)
Theorem supplied_domain_and_randomness_are_passed_on
    (h : heap) (self : loc) (e : LogLikelihoodObject) (c : list float)
    (d : HistoricalDataObject) (ps : list (list float)) (psv nv : list float)
    (parameters : loc) (p : HyperparameterOptimizationParameters)
    (i : ClosedInterval) (domain : list ClosedInterval)
    (r : RandomnessSourceContainer) (max_num_threads : Z)
    (status : option loc) (entropy : Z) :
  evaluator_in h self e c d ps psv nv ->
  h !! parameters = Some (OptimizationParameters p) ->
  exists (a : EngineArguments) (h1 : heap),
    multistart_engine_arguments self parameters (Some (i :: domain)) (Some r)
      max_num_threads status entropy h = (Ok a, h1)
    /\ arg_domain a = i :: domain
    /\ arg_randomness a = r
    /\ arg_max_num_threads a = max_num_threads
    /\ multistart_hyperparameter_optimization self parameters (Some (i :: domain))
         (Some r) max_num_threads status entropy h
       = C_GP_multistart_hyperparameter_optimization a h1.
Proof.
  intros Hev Hp.
  destruct (multistart_engine_arguments_run _ _ _ _ _ _ _ _ parameters p
              (Some (i :: domain)) (Some r) max_num_threads status entropy Hev Hp)
    as [Hprep _].
  eexists _, _. split; [exact Hprep|]. do 3 (split; [reflexivity|]).
  by apply multistart_hyperparameter_optimization_split.
Qed.

(** X9.  The engine is handed the kernel's hyperparameters of the moment:
    after [compute_log_likelihood(x)] on the evaluator, a call of
    [multistart_hyperparameter_optimization] passes [x] as the
    hyperparameters argument, not the vector the evaluator was built
    with. *)
Theorem multistart_passes_current_kernel_state
    (h : heap) (self : loc) (e : LogLikelihoodObject) (c : list float)
    (d : HistoricalDataObject) (ps : list (list float)) (psv nv : list float)
    (parameters : loc) (p : HyperparameterOptimizationParameters)
    (hyperparameter_domain : option (list ClosedInterval))
    (randomness : option RandomnessSourceContainer) (max_num_threads : Z)
    (status : option loc) (entropy : Z) (x : list float) :
  evaluator_in h self e c d ps psv nv ->
  h !! parameters = Some (OptimizationParameters p) ->
  exists (a a' : EngineArguments) (h1 h1' : heap),
    multistart_engine_arguments self parameters hyperparameter_domain randomness
      max_num_threads status entropy h = (Ok a, h1)
    /\ arg_hyperparameters a = c
    /\ multistart_engine_arguments self parameters hyperparameter_domain randomness
         max_num_threads status entropy (compute_log_likelihood self x h).2
       = (Ok a', h1')
    /\ arg_hyperparameters a' = x
    /\ multistart_hyperparameter_optimization self parameters hyperparameter_domain
         randomness max_num_threads status entropy (compute_log_likelihood self x h).2
       = C_GP_multistart_hyperparameter_optimization a' h1'.
Proof.
  intros Hev Hp.
  destruct (multistart_engine_arguments_run _ _ _ _ _ _ _ _ parameters p
              hyperparameter_domain randomness max_num_threads status entropy Hev Hp)
    as [Hprep _].
  pose proof (evaluator_in_set_hyperparameters _ _ _ _ _ _ _ _ x Hev) as Hev'.
  assert (Hp' : <[_covariance e := Covariance x]> h !! parameters
                = Some (OptimizationParameters p)).
  { rewrite lookup_insert_ne; [done|]. intros Heq.
    destruct Hev as [_ E2 _ _ _ _]. rewrite Heq in E2. congruence. }
  destruct (multistart_engine_arguments_run _ _ _ _ _ _ _ _ parameters p
              hyperparameter_domain randomness max_num_threads status entropy Hev' Hp')
    as [Hprep' _].
  rewrite (compute_log_likelihood_run _ _ _ _ _ _ _ _ x Hev). simpl.
  eexists _, _, _, _. split; [exact Hprep|]. split; [reflexivity|].
  split; [exact Hprep'|]. split; [reflexivity|].
  by apply multistart_hyperparameter_optimization_split.
Qed.

(** X10.  The [objective_type] a caller sets on the parameter object has
    no effect: the call made with the parameter object holding any other
    objective type returns the same result and ends in the same store. *)
Theorem caller_objective_type_has_no_effect
    (h : heap) (self : loc) (e : LogLikelihoodObject) (c : list float)
    (d : HistoricalDataObject) (ps : list (list float)) (psv nv : list float)
    (parameters : loc) (p : HyperparameterOptimizationParameters)
    (t' : LogLikelihoodTypes)
    (hyperparameter_domain : option (list ClosedInterval))
    (randomness : option RandomnessSourceContainer) (max_num_threads : Z)
    (status : option loc) (entropy : Z) :
  evaluator_in h self e c d ps psv nv ->
  h !! parameters = Some (OptimizationParameters p) ->
  multistart_hyperparameter_optimization self parameters hyperparameter_domain
    randomness max_num_threads status entropy
    (<[parameters := OptimizationParameters (with_objective_type p t')]> h)
  = multistart_hyperparameter_optimization self parameters hyperparameter_domain
      randomness max_num_threads status entropy h.
Proof.
  intros Hev Hp.
  set (h' := <[parameters := OptimizationParameters (with_objective_type p t')]> h).
  assert (Hev' : evaluator_in h' self e c d ps psv nv)
    by (by eapply evaluator_in_insert_other).
  assert (Hp' : h' !! parameters = Some (OptimizationParameters (with_objective_type p t')))
    by apply lookup_insert_eq.
  destruct (multistart_engine_arguments_run _ _ _ _ _ _ _ _ parameters p
              hyperparameter_domain randomness max_num_threads status entropy Hev Hp)
    as [Hprep _].
  destruct (multistart_engine_arguments_run _ _ _ _ _ _ _ _ parameters _
              hyperparameter_domain randomness max_num_threads status entropy Hev' Hp')
    as [Hprep' _].
  rewrite (multistart_hyperparameter_optimization_split _ _ _ _ _ _ _ _ _ _ Hprep).
  rewrite (multistart_hyperparameter_optimization_split _ _ _ _ _ _ _ _ _ _ Hprep').
  assert (Hdom : dom h' = dom h).
  { apply dom_insert_lookup_L. by exists (OptimizationParameters p). }
  assert (Hfresh : fresh (dom h) <> parameters).
  { intros Heq. apply (is_fresh (dom h)). rewrite Heq. by apply elem_of_dom_2 in Hp. }
  assert (Hargs : prepared_arguments h' e c d ps psv nv parameters hyperparameter_domain
                    randomness max_num_threads status entropy
                  = prepared_arguments h e c d ps psv nv parameters hyperparameter_domain
                      randomness max_num_threads status entropy).
  { unfold prepared_arguments, status_reference. by rewrite Hdom. }
  assert (Hstore : prepared_store h' e parameters (with_objective_type p t') status
                   = prepared_store h e parameters p status).
  { unfold prepared_store, status_store.
    change (with_objective_type (with_objective_type p t') (_log_likelihood_type e))
      with (with_objective_type p (_log_likelihood_type e)).
    destruct status as [s|].
    - unfold h'. by rewrite insert_insert_eq.
    - rewrite Hdom. unfold h'.
      rewrite (insert_insert_ne h (fresh (dom h)) parameters) by done.
      by rewrite insert_insert_eq. }
  by rewrite Hargs, Hstore.
Qed.

(** X11.  The optimum is returned, not installed: after a call of
    [multistart_hyperparameter_optimization], returned or raised, the
    evaluator is complete as before and its kernel holds the vector it
    held before the call. *)
Theorem multistart_leaves_the_evaluator
    (h : heap) (self : loc) (e : LogLikelihoodObject) (c : list float)
    (d : HistoricalDataObject) (ps : list (list float)) (psv nv : list float)
    (parameters : loc) (p : HyperparameterOptimizationParameters)
    (hyperparameter_domain : option (list ClosedInterval))
    (randomness : option RandomnessSourceContainer) (max_num_threads : Z)
    (status : option loc) (entropy : Z) :
  evaluator_in h self e c d ps psv nv ->
  h !! parameters = Some (OptimizationParameters p) ->
  evaluator_in
    (multistart_hyperparameter_optimization self parameters hyperparameter_domain
       randomness max_num_threads status entropy h).2
    self e c d ps psv nv
  /\ get_hyperparameters (_covariance e)
       (multistart_hyperparameter_optimization self parameters hyperparameter_domain
          randomness max_num_threads status entropy h).2
     = (Ok c,
        (multistart_hyperparameter_optimization self parameters hyperparameter_domain
           randomness max_num_threads status entropy h).2).
Proof.
  intros Hev Hp.
  destruct (multistart_engine_arguments_run _ _ _ _ _ _ _ _ parameters p
              hyperparameter_domain randomness max_num_threads status entropy Hev Hp)
    as [Hprep Hev1].
  rewrite (multistart_hyperparameter_optimization_split _ _ _ _ _ _ _ _ _ _ Hprep).
  assert (Hev2 : evaluator_in
                   (C_GP_multistart_hyperparameter_optimization
                      (prepared_arguments h e c d ps psv nv parameters
                         hyperparameter_domain randomness max_num_threads status entropy)
                      (prepared_store h e parameters p status)).2
                   self e c d ps psv nv).
  { destruct (C_GP_multistart_hyperparameter_optimization_store
                (prepared_arguments h e c d ps psv nv parameters hyperparameter_domain
                   randomness max_num_threads status entropy)
                (prepared_store h e parameters p status))
      as [-> | (s & s' & Hs & ->)]; [done|].
    by eapply evaluator_in_insert_other. }
  split; [exact Hev2|].
  apply get_hyperparameters_Some. by destruct Hev2.
Qed.

End FurtherMultistart.

Section FurtherOwnership.
Context {engine : GPP}.

(** ** Evaluators side by side *)

(** A write to an object that existed before an evaluator was created
    does not touch the evaluator. *)
Lemma evaluator_in_insert_older (h0 h : heap) self e c d ps psv nv (l : loc) (o : obj) :
  evaluator_in h self e c d ps psv nv ->
  Forall (fun k => h0 !! k = None)
    [self; _covariance e; _historical_data e;
     points_sampled d; points_sampled_value d; noise_variance d] ->
  is_Some (h0 !! l) ->
  evaluator_in (<[l := o]> h) self e c d ps psv nv.
Proof.
  intros [E1 E2 E3 E4 E5 E6] Hnew [o' Hl].
  rewrite !Forall_cons in Hnew. destruct Hnew as (N1 & N2 & N3 & N4 & N5 & N6 & _).
  split; (rewrite lookup_insert_ne; [done|]; intros ->; congruence).
Qed.

(** X12.  Two evaluators built from the same kernel and data share
    nothing: an evaluation on the first, which rewrites its kernel,
    changes neither what the second returns nor the vector the second's
    kernel holds. *)
Theorem evaluators_share_nothing
    (cls1 cls2 : LogLikelihoodClass) (t1 t2 : LogLikelihoodTypes) (cov hist : loc)
    (c : list float) (d : HistoricalDataObject)
    (ps : list (list float)) (psv nv : list float) (h0 : heap) :
  constructor_arguments_in h0 cov hist c d ps psv nv ->
  exists (first second : loc) (h1 h2 : heap) (e2 : LogLikelihoodObject),
    LogLikelihood___init__ cls1 cov hist t1 h0 = (Ok first, h1)
    /\ LogLikelihood___init__ cls2 cov hist t2 h1 = (Ok second, h2)
    /\ first <> second
    /\ h2 !! second = Some (LogLikelihoodInstance e2)
    /\ forall x y : list float,
         observe second y (compute_log_likelihood first x h2).2 = observe second y h2
         /\ get_hyperparameters (_covariance e2) (compute_log_likelihood first x h2).2
            = (Ok c, (compute_log_likelihood first x h2).2).
Proof.
  intros Hargs.
  destruct (LogLikelihood___init___arguments cls1 cov hist t1 c d ps psv nv h0 Hargs)
    as (first & h1 & e1 & d1 & Hrun1 & Hsub1 & _ & _ & _ & _ & Hev1 & _).
  pose proof (constructor_arguments_in_weaken _ _ _ _ _ _ _ _ _ Hsub1 Hargs) as Hargs1.
  destruct (LogLikelihood___init___arguments cls2 cov hist t2 c d ps psv nv h1 Hargs1)
    as (second & h2 & e2 & d2 & Hrun2 & Hsub2 & _ & _ & _ & _ & Hev2 & Hnew2).
  pose proof (evaluator_in_weaken _ _ _ _ _ _ _ _ _ Hsub2 Hev1) as Hev12.
  exists first, second, h1, h2, e2.
  split; [exact Hrun1|]. split; [exact Hrun2|]. split; [|split].
  - intros ->. destruct Hev1 as [E1 _ _ _ _ _].
    apply Forall_cons_1 in Hnew2 as [N _]. congruence.
  - by destruct Hev2.
  - intros x y.
    rewrite (compute_log_likelihood_run _ _ _ _ _ _ _ _ x Hev12). simpl.
    assert (Hev2' : evaluator_in (<[_covariance e1 := Covariance x]> h2)
                      second e2 c d2 ps psv nv).
    { eapply evaluator_in_insert_older; [exact Hev2|exact Hnew2|].
      destruct Hev1 as [_ E2 _ _ _ _]. by eexists. }
    split.
    + by rewrite (observe_run _ _ _ _ _ _ _ _ y Hev2'),
                 (observe_run _ _ _ _ _ _ _ _ y Hev2).
    + apply get_hyperparameters_Some. by destruct Hev2'.
Qed.

End FurtherOwnership.

(** ** The further properties at work on the example *)


Lemma evaluation_leaves_caller_objects_witness :
  exists (self : loc) (h1 : heap),
    LogLikelihood___init__ LogMarginalLikelihood 1%positive 5%positive
      log_marginal_likelihood example_store = (Ok self, h1)
    /\ forall (x : list float) (l : loc),
         l ∈ dom example_store ->
         (compute_log_likelihood (engine := example_engine) self x h1).2 !! l
         = example_store !! l
         /\ (compute_grad_log_likelihood (engine := example_engine) self x h1).2 !! l
            = example_store !! l
         /\ get_hyperparameters 1%positive
              (compute_log_likelihood (engine := example_engine) self x h1).2
            = (Ok [1%float; 0.5%float],
               (compute_log_likelihood (engine := example_engine) self x h1).2).
Proof.
  apply (evaluation_leaves_caller_objects (engine := example_engine)
           LogMarginalLikelihood 1%positive 5%positive log_marginal_likelihood
           [1%float; 0.5%float] example_original_data
           [[0%float]; [1%float]; [2%float]] [0%float; 1%float; 0%float]
           [0.25%float; 0.25%float; 0.25%float] example_store).
  split; vm_compute; reflexivity.
Defined.

Lemma last_evaluation_wins_witness :
  compute_log_likelihood (engine := example_engine) 11%positive [3%float; 4%float]
    (compute_log_likelihood (engine := example_engine) 11%positive [2%float; 2%float]
       example_lml_store).2
    = compute_log_likelihood (engine := example_engine) 11%positive [3%float; 4%float]
        example_lml_store
  /\ compute_log_likelihood (engine := example_engine) 11%positive [3%float; 4%float]
       (compute_grad_log_likelihood (engine := example_engine) 11%positive
          [2%float; 2%float] example_lml_store).2
    = compute_log_likelihood (engine := example_engine) 11%positive [3%float; 4%float]
        example_lml_store
  /\ compute_grad_log_likelihood (engine := example_engine) 11%positive
       [3%float; 4%float]
       (compute_log_likelihood (engine := example_engine) 11%positive [2%float; 2%float]
          example_lml_store).2
    = compute_grad_log_likelihood (engine := example_engine) 11%positive
        [3%float; 4%float] example_lml_store
  /\ compute_grad_log_likelihood (engine := example_engine) 11%positive
       [3%float; 4%float]
       (compute_grad_log_likelihood (engine := example_engine) 11%positive
          [2%float; 2%float] example_lml_store).2
    = compute_grad_log_likelihood (engine := example_engine) 11%positive
        [3%float; 4%float] example_lml_store
  /\ compute_log_likelihood (engine := example_engine) 11%positive [2%float; 2%float]
       (compute_log_likelihood (engine := example_engine) 11%positive [2%float; 2%float]
          example_lml_store).2
    = ((compute_log_likelihood (engine := example_engine) 11%positive [2%float; 2%float]
          example_lml_store).1,
       (compute_log_likelihood (engine := example_engine) 11%positive [2%float; 2%float]
          example_lml_store).2).
Proof.
  apply (last_evaluation_wins (engine := example_engine) example_lml_store 11%positive
           example_evaluator [1%float; 0.5%float] example_data
           [[0%float]; [1%float]; [2%float]] [0%float; 1%float; 0%float]
           [0.25%float; 0.25%float; 0.25%float] [2%float; 2%float] [3%float; 4%float]).
  split; vm_compute; reflexivity.
Defined.

Lemma batch_and_loop_differ_in_kernel_state_witness :
  (evaluate_log_likelihood_at_hyperparameter_list (engine := example_engine) 11%positive
     ([[1%float; 2%float]] ++ [[3%float; 4%float]]) 1 example_lml_store).1
    = (mapM (compute_log_likelihood (engine := example_engine) 11%positive)
         ([[1%float; 2%float]] ++ [[3%float; 4%float]]) example_lml_store).1
  /\ get_hyperparameters 6%positive
       (mapM (compute_log_likelihood (engine := example_engine) 11%positive)
          ([[1%float; 2%float]] ++ [[3%float; 4%float]]) example_lml_store).2
     = (Ok [3%float; 4%float],
        (mapM (compute_log_likelihood (engine := example_engine) 11%positive)
           ([[1%float; 2%float]] ++ [[3%float; 4%float]]) example_lml_store).2)
  /\ get_hyperparameters 6%positive
       (evaluate_log_likelihood_at_hyperparameter_list (engine := example_engine)
          11%positive ([[1%float; 2%float]] ++ [[3%float; 4%float]]) 1
          example_lml_store).2
     = (Ok [1%float; 0.5%float], example_lml_store).
Proof.
  apply (batch_and_loop_differ_in_kernel_state (engine := example_engine)
           example_lml_store 11%positive example_evaluator [1%float; 0.5%float]
           example_data [[0%float]; [1%float]; [2%float]] [0%float; 1%float; 0%float]
           [0.25%float; 0.25%float; 0.25%float] [[1%float; 2%float]]
           [3%float; 4%float] 1).
  split; vm_compute; reflexivity.
Defined.

Lemma supplied_domain_and_randomness_are_passed_on_witness :
  exists (a : EngineArguments) (h1 : heap),
    multistart_engine_arguments (engine := example_engine) 11%positive 12%positive
      (Some example_bad_domain) (Some example_randomness) 4 (Some 13%positive) 0
      example_call_store = (Ok a, h1)
    /\ arg_domain a = example_bad_domain
    /\ arg_randomness a = example_randomness
    /\ arg_max_num_threads a = 4
    /\ multistart_hyperparameter_optimization (engine := example_engine) 11%positive
         12%positive (Some example_bad_domain) (Some example_randomness) 4
         (Some 13%positive) 0 example_call_store
       = C_GP_multistart_hyperparameter_optimization (engine := example_engine) a h1.
Proof.
  apply (supplied_domain_and_randomness_are_passed_on (engine := example_engine)
           example_call_store 11%positive example_evaluator [1%float; 0.5%float]
           example_data [[0%float]; [1%float]; [2%float]] [0%float; 1%float; 0%float]
           [0.25%float; 0.25%float; 0.25%float] 12%positive example_parameters
           {| min := 1%float; max := (-2)%float |} [] example_randomness 4
           (Some 13%positive) 0).
  - split; vm_compute; reflexivity.
  - vm_compute; reflexivity.
Defined.

Lemma multistart_passes_current_kernel_state_witness :
  exists (a a' : EngineArguments) (h1 h1' : heap),
    multistart_engine_arguments (engine := example_engine) 11%positive 12%positive
      None None 1 (Some 13%positive) 0 example_call_store = (Ok a, h1)
    /\ arg_hyperparameters a = [1%float; 0.5%float]
    /\ multistart_engine_arguments (engine := example_engine) 11%positive 12%positive
         None None 1 (Some 13%positive) 0
         (compute_log_likelihood (engine := example_engine) 11%positive [9%float]
            example_call_store).2
       = (Ok a', h1')
    /\ arg_hyperparameters a' = [9%float]
    /\ multistart_hyperparameter_optimization (engine := example_engine) 11%positive
         12%positive None None 1 (Some 13%positive) 0
         (compute_log_likelihood (engine := example_engine) 11%positive [9%float]
            example_call_store).2
       = C_GP_multistart_hyperparameter_optimization (engine := example_engine) a' h1'.
Proof.
  apply (multistart_passes_current_kernel_state (engine := example_engine)
           example_call_store 11%positive example_evaluator [1%float; 0.5%float]
           example_data [[0%float]; [1%float]; [2%float]] [0%float; 1%float; 0%float]
           [0.25%float; 0.25%float; 0.25%float] 12%positive example_parameters
           None None 1 (Some 13%positive) 0 [9%float]).
  - split; vm_compute; reflexivity.
  - vm_compute; reflexivity.
Defined.

Lemma caller_objective_type_has_no_effect_witness :
  multistart_hyperparameter_optimization (engine := example_engine) 11%positive
    12%positive None None 1 (Some 13%positive) 0
    (<[12%positive := OptimizationParameters
                        (with_objective_type example_parameters log_marginal_likelihood)]>
       example_call_store)
  = example_call (Some 13%positive) 0.
Proof.
  apply (caller_objective_type_has_no_effect (engine := example_engine)
           example_call_store 11%positive example_evaluator [1%float; 0.5%float]
           example_data [[0%float]; [1%float]; [2%float]] [0%float; 1%float; 0%float]
           [0.25%float; 0.25%float; 0.25%float] 12%positive example_parameters
           log_marginal_likelihood None None 1 (Some 13%positive) 0).
  - split; vm_compute; reflexivity.
  - vm_compute; reflexivity.
Defined.

Lemma multistart_leaves_the_evaluator_witness :
  evaluator_in (example_call (Some 13%positive) 0).2 11%positive example_evaluator
    [1%float; 0.5%float] example_data
    [[0%float]; [1%float]; [2%float]] [0%float; 1%float; 0%float]
    [0.25%float; 0.25%float; 0.25%float]
  /\ get_hyperparameters 6%positive (example_call (Some 13%positive) 0).2
     = (Ok [1%float; 0.5%float], (example_call (Some 13%positive) 0).2).
Proof.
  apply (multistart_leaves_the_evaluator (engine := example_engine)
           example_call_store 11%positive example_evaluator [1%float; 0.5%float]
           example_data [[0%float]; [1%float]; [2%float]] [0%float; 1%float; 0%float]
           [0.25%float; 0.25%float; 0.25%float] 12%positive example_parameters
           None None 1 (Some 13%positive) 0).
  - split; vm_compute; reflexivity.
  - vm_compute; reflexivity.
Defined.

Lemma evaluators_share_nothing_witness :
  exists (first second : loc) (h1 h2 : heap) (e2 : LogLikelihoodObject),
    LogLikelihood___init__ LogMarginalLikelihood 1%positive 5%positive
      log_marginal_likelihood example_store = (Ok first, h1)
    /\ LogLikelihood___init__ LeaveOneOutLogLikelihood 1%positive 5%positive
         leave_one_out_log_likelihood h1 = (Ok second, h2)
    /\ first <> second
    /\ h2 !! second = Some (LogLikelihoodInstance e2)
    /\ forall x y : list float,
         observe (engine := example_engine) second y
           (compute_log_likelihood (engine := example_engine) first x h2).2
         = observe (engine := example_engine) second y h2
         /\ get_hyperparameters (_covariance e2)
              (compute_log_likelihood (engine := example_engine) first x h2).2
            = (Ok [1%float; 0.5%float],
               (compute_log_likelihood (engine := example_engine) first x h2).2).
Proof.
  apply (evaluators_share_nothing (engine := example_engine)
           LogMarginalLikelihood LeaveOneOutLogLikelihood log_marginal_likelihood
           leave_one_out_log_likelihood 1%positive 5%positive
           [1%float; 0.5%float] example_original_data
           [[0%float]; [1%float]; [2%float]] [0%float; 1%float; 0%float]
           [0.25%float; 0.25%float; 0.25%float] example_store).
  split; vm_compute; reflexivity.
Defined.
